(** * XKT format V1 parser (ParserV1.js): a shallow embedding

    The parser walks two levels of offset tables (entities own a range of
    meshes, meshes own a range of each shared geometry array), decodes the
    packed RGBA colour of every mesh and reports its work to a builder
    object through [createMesh] and [createEntity].

    The embedding keeps the shape of the JavaScript:
    - typed arrays are views (buffer, offset, length) and [subarray] makes a
      new view of the same buffer, clamping its arguments as ECMAScript does;
    - JavaScript numbers are IEEE 754 binary64 values ([spec_float] of
      Corelib, with the library's correctly rounded division); a store into
      a [Float32Array] rounds to binary32;
    - object literals are finite maps from property names to values;
    - [decompressColor] owns one [Float32Array(3)] for the whole program, so
      the store carries the contents of that array and values refer to it by
      reference;
    - the builder ([performanceModel]) is a log of the calls it received.

    [load] is modelled from the inflated arrays on: [extract] and [inflate]
    only name and decompress the twelve blocks (the decompression is the
    pako library's) and [JSON.parse] has already produced [entityIDs]. *)

From Stdlib Require Import ZArith Lia Floats.SpecFloat.
From Stdlib Require Import Strings.String Strings.Byte DecimalString.
From stdpp Require Import gmap strings list.

Local Open Scope nat_scope.

(** ** JavaScript numbers *)

Module JSNumber.

(** A JavaScript number: binary64, precision 53, emax 1024. *)
Definition number : Type := spec_float.

Definition of_Z (z : Z) : number := binary_normalize 53 1024 z 0 false.

Definition of_byte (b : byte) : number := of_Z (Z.of_N (Byte.to_N b)).

(** The [/] operator on numbers. *)
Definition div (x y : number) : number := SFdiv 53 1024 x y.

(** ToNumber(undefined). *)
Definition NaN : number := S754_nan.

(** A binary32 value (precision 24, emax 128) read back as a number: the
    same real, written with a 53-bit significand. *)
Definition of_binary32 (x : spec_float) : number :=
  match x with
  | S754_finite s m e => binary_round 53 1024 s m e
  | _ => x
  end.

(** The value an element of a [Float32Array] has after [x] is stored into
    it: [x] rounded to binary32, ties to even (Math.fround). *)
Definition fround (x : number) : number :=
  match x with
  | S754_finite s m e => of_binary32 (binary_round 24 128 s m e)
  | _ => x
  end.

Definition leb (x y : number) : bool := SFleb x y.

(** [0 <= x <= 1]. *)
Definition in_unit_interval (x : number) : bool :=
  leb (of_Z 0) x && leb x (of_Z 1).

(** The real value of a finite number, as a fraction [(numerator, log2 of
    the denominator)] when the exponent is not positive. *)
Definition dyadic (x : number) : option (Z * Z) :=
  match x with
  | S754_zero _ => Some (0%Z, 0%Z)
  | S754_finite s m e =>
      if (e <=? 0)%Z then Some (cond_Zopp s (Zpos m), (- e)%Z) else None
  | _ => None
  end.

(** [x] is within [1/den] of [num/den], for a number with a dyadic value
    [m / 2^k]:   |m * den - num * 2^k| <= 2^k. *)
Definition close_to (x : number) (num den : Z) : bool :=
  match dyadic x with
  | Some (m, k) => (Z.abs (m * den - num * 2 ^ k) <=? 2 ^ k)%Z
  | None => false
  end.

End JSNumber.

Import JSNumber.

(** ** Typed arrays *)

Record TypedArray (A : Type) : Type := mkTypedArray {
  ta_buffer : list A;     (* the elements of the underlying ArrayBuffer *)
  ta_offset : nat;        (* byteOffset, counted in elements *)
  ta_length : nat         (* .length *)
}.

Arguments mkTypedArray {A} _ _ _.
Arguments ta_buffer {A} _.
Arguments ta_offset {A} _.
Arguments ta_length {A} _.

(** [new XArray(buffer)]: a view of a whole buffer. *)
Definition ta_of_list {A} (l : list A) : TypedArray A :=
  mkTypedArray l 0 (length l).

(** [a[k]]: [None] stands for [undefined], the result out of range. *)
Definition ta_get {A} (a : TypedArray A) (k : nat) : option A :=
  if decide (k < ta_length a) then ta_buffer a !! (ta_offset a + k) else None.

(** The offset one past the last element of the view. *)
Definition ta_end {A} (a : TypedArray A) : nat := ta_offset a + ta_length a.

(** The elements seen through the view. *)
Definition ta_elements {A} (a : TypedArray A) : list A :=
  take (ta_length a) (drop (ta_offset a) (ta_buffer a)).

(** [a.subarray(begin, end)] for arguments that are [undefined] or
    non-negative integers (every call of the parser passes an element of a
    [Uint32Array], a [.length] or a product of such):
    ToIntegerOrInfinity(undefined) is 0 for [begin], an [undefined] [end] is
    the length, both are clamped to the length and the new length is
    max(end - begin, 0). *)
Definition subarray {A} (a : TypedArray A) (begin end_ : option nat)
  : TypedArray A :=
  let srcLength := ta_length a in
  let relativeBegin := default 0 begin in
  let beginIndex := Nat.min relativeBegin srcLength in
  let endIndex :=
    match end_ with
    | None => srcLength
    | Some relativeEnd => Nat.min relativeEnd srcLength
    end in
  let newLength := endIndex - beginIndex in
  mkTypedArray (ta_buffer a) (ta_offset a + beginIndex) newLength.

(** ** Values and objects *)

(** The one [Float32Array] that is mutated after it has been handed out. *)
Inductive Ref : Type := Color2.

Inductive Value : Type :=
| VUndefined
| VBool (b : bool)
| VNum (x : number)
| VStr (s : string)
| VInts (a : TypedArray Z)          (* a Uint16/Int8/Uint32 array view *)
| VFloats (a : TypedArray number)   (* a Float32Array of the caller *)
| VNums (l : list number)           (* an array of numbers of the caller *)
| VStrs (l : list string)           (* an array of strings *)
| VFloat32Ref (r : Ref).            (* the array [color2], by reference *)

(** An object literal: property name to value. *)
Abbreviation Obj := (gmap string Value).

(** ToString of a string or [undefined]. *)
Definition js_string (s : option string) : string := default "undefined" s.

(** ToString of a non-negative integer. *)
Definition nat_to_string (n : nat) : string :=
  NilZero.string_of_uint (Nat.to_uint n).

(** Truthiness of a string or [undefined]. *)
Definition truthy_string (s : option string) : bool :=
  match s with
  | Some s => negb (String.eqb s "")
  | None => false
  end.

Definition value_of_id (s : option string) : Value :=
  match s with
  | Some s => VStr s
  | None => VUndefined
  end.

Module utils.

(** Modelled from the spec: [utils.apply] of viewer/scene/utils.js, which
    is not among the sources.  The spec describes the record construction
    as a shallow merge of a defaults object and a literal-fields object in
    which defaults apply only where the literal data does not already
    dictate the value.  [apply o o2] therefore has every property of [o2]
    and, of [o], the properties that [o2] lacks. *)
Definition apply (o o2 : Obj) : Obj := o2 ∪ o.

End utils.

(** ** The inputs of [load] *)

(** [inflatedData], with [entityIDs] already through [JSON.parse]. *)
Record InflatedData : Type := mkInflatedData {
  positions : TypedArray Z;             (* Uint16Array *)
  normals : TypedArray Z;               (* Int8Array *)
  indices : TypedArray Z;               (* Uint32Array *)
  edgeIndices : TypedArray Z;           (* Uint32Array *)
  meshPositions : TypedArray nat;       (* Uint32Array *)
  meshIndices : TypedArray nat;         (* Uint32Array *)
  meshEdgesIndices : TypedArray nat;    (* Uint32Array *)
  meshColors : TypedArray byte;         (* Uint8Array *)
  entityIDs : list string;
  entityMeshes : TypedArray nat;        (* Uint32Array *)
  entityIsObjects : TypedArray byte;    (* Uint8Array *)
  positionsDecodeMatrix : TypedArray number  (* Float32Array *)
}.

(** An entry of [viewer.metaScene.metaObjects]; [None] is a missing
    [type]. *)
Record MetaObject : Type := mkMetaObject {
  type : option string
}.

Record Viewer : Type := mkViewer {
  metaObjects : gmap string MetaObject
}.

(** An entry of [options.objectDefaults]; [None] is a missing property. *)
Record Props : Type := mkProps {
  visible : option bool;
  pickable : option bool;
  colorize : option (list number);
  opacity : option number
}.

Record Options : Type := mkOptions {
  excludeTypesMap : option (gmap string bool);
  includeTypesMap : option (gmap string bool);
  objectDefaults : option (gmap string Props);
  excludeUnclassifiedObjects : bool
}.

(** ** The store: the builder and the colour buffer *)

Inductive Call : Type :=
| CreateMesh (cfg : Obj)
| CreateEntity (cfg : Obj).

Record PerformanceModel : Type := mkPerformanceModel {
  positionsCompression : option string;
  normalsCompression : option string;
  calls : list Call                       (* oldest first *)
}.

Record Store : Type := mkStore {
  color2 : list number;                   (* contents of the Float32Array(3) *)
  performanceModel : PerformanceModel
}.

(** The store a program starts with: [new Float32Array(3)] is zero-filled
    and the builder has received nothing. *)
Definition initialStore : Store :=
  mkStore [of_Z 0; of_Z 0; of_Z 0] (mkPerformanceModel None None []).

(** What a reference denotes in a store. *)
Definition deref (st : Store) (r : Ref) : list number :=
  match r with
  | Color2 => color2 st
  end.

(** A small state monad over the store. *)
Definition M (A : Type) : Type := Store -> A * Store.

Definition ret {A} (x : A) : M A := fun st => (x, st).

Definition bind {A B} (m : M A) (f : A -> M B) : M B :=
  fun st => let (x, st') := m st in f x st'.

Notation "'let*' x ':=' m 'in' k" := (bind m (fun x => k))
  (at level 10, x name, m at level 100, k at level 200).
Notation "m ';;' k" := (bind m (fun _ => k))
  (at level 100, k at level 200, right associativity).

Definition exec {A} (m : M A) (st : Store) : Store := snd (m st).

(** [color2[k] = x]. *)
Definition setColor2 (k : nat) (x : number) : M unit :=
  fun st => (tt, mkStore (<[k := fround x]> (color2 st)) (performanceModel st)).

Definition setPositionsCompression (s : string) : M unit :=
  fun st =>
    let pm := performanceModel st in
    (tt, mkStore (color2 st)
           (mkPerformanceModel (Some s) (normalsCompression pm) (calls pm))).

Definition setNormalsCompression (s : string) : M unit :=
  fun st =>
    let pm := performanceModel st in
    (tt, mkStore (color2 st)
           (mkPerformanceModel (positionsCompression pm) (Some s) (calls pm))).

Definition record (c : Call) : M unit :=
  fun st =>
    let pm := performanceModel st in
    (tt, mkStore (color2 st)
           (mkPerformanceModel (positionsCompression pm) (normalsCompression pm)
              (calls pm ++ [c]))).

Definition createMesh (cfg : Obj) : M unit := record (CreateMesh cfg).
Definition createEntity (cfg : Obj) : M unit := record (CreateEntity cfg).

(** ** decompressColor *)

(** [x / 255.0] for an element of a [Uint8Array] or [undefined]. *)
Definition div255 (x : option byte) : number :=
  match x with
  | Some b => div (of_byte b) (of_Z 255)
  | None => div NaN (of_Z 255)
  end.

Definition decompressColor (color : TypedArray byte) : M Value :=
  setColor2 0 (div255 (ta_get color 0)) ;;
  setColor2 1 (div255 (ta_get color 1)) ;;
  setColor2 2 (div255 (ta_get color 2)) ;;
  ret (VFloat32Ref Color2).

(** ** load *)

(** [for (let k = start; k < start + n; k++) acc = body(k, acc)]: a loop
    whose trip count is known when it starts. *)
Fixpoint for_loop {A} (n start : nat) (body : nat -> A -> M A) (acc : A)
  : M A :=
  match n with
  | 0 => ret acc
  | S n' => let* acc' := body start acc in for_loop n' (S start) body acc'
  end.

(** An object literal, written as the list of its properties. *)
Definition obj (l : list (string * Value)) : Obj := list_to_map l.

(** Truthiness of [map[key]] for a map of flags. *)
Definition flag (m : gmap string bool) (key : string) : bool :=
  default false (m !! key).

(** [x === 1] for an element of a [Uint8Array] or [undefined]. *)
Definition strictly_one (x : option byte) : bool :=
  match x with
  | Some b => Byte.eqb b x01
  | None => false
  end.

Section Load.

Variable viewer : Viewer.
Variable options : Options.
Variable inflatedData : InflatedData.

Definition numMeshes : nat := ta_length (meshPositions inflatedData).
Definition numEntities : nat := ta_length (entityMeshes inflatedData).

Definition entityId (i : nat) : option string :=
  entityIDs inflatedData !! i.

Definition metaObject (i : nat) : option MetaObject :=
  metaObjects viewer !! js_string (entityId i).

(** [options.excludeTypesMap && metaObject.type &&
     options.excludeTypesMap[metaObject.type]] *)
Definition excludedType (mo : MetaObject) : bool :=
  match excludeTypesMap options with
  | Some m => truthy_string (type mo) && flag m (js_string (type mo))
  | None => false
  end.

(** [options.includeTypesMap && metaObject.type &&
     (!options.includeTypesMap[metaObject.type])] *)
Definition notIncludedType (mo : MetaObject) : bool :=
  match includeTypesMap options with
  | Some m => truthy_string (type mo) && negb (flag m (js_string (type mo)))
  | None => false
  end.

(** [options.objectDefaults ?
     options.objectDefaults[metaObject.type || "DEFAULT"] : null] *)
Definition propsOf (mo : MetaObject) : option Props :=
  match objectDefaults options with
  | Some defaults =>
      defaults !! (if truthy_string (type mo) then js_string (type mo)
                   else "DEFAULT")
  | None => None
  end.

Definition entityDefaultsOf (props : option Props) : Obj :=
  match props with
  | Some p =>
      let o1 : Obj :=
        match visible p with
        | Some false => <["visible" := VBool false]> ∅
        | _ => ∅
        end in
      match pickable p with
      | Some false => <["pickable" := VBool false]> o1
      | _ => o1
      end
  | None => ∅
  end.

Definition meshDefaultsOf (props : option Props) : Obj :=
  match props with
  | Some p =>
      let o1 : Obj :=
        match colorize p with
        | Some c => <["color" := VNums c]> ∅
        | None => ∅
        end in
      match opacity p with
      | Some x => <["opacity" := VNum x]> o1
      | None => o1
      end
  | None => ∅
  end.

(** Does iteration [i] of the entity loop end in a [continue]? *)
Definition skipped (i : nat) : bool :=
  match metaObject i with
  | Some mo => excludedType mo || notIncludedType mo
  | None => excludeUnclassifiedObjects options
  end.

Definition lastEntity (i : nat) : bool :=
  (Z.of_nat i =? Z.of_nat numEntities - 1)%Z.

Definition lastMesh (j : nat) : bool :=
  (Z.of_nat j =? Z.of_nat numMeshes - 1)%Z.

(** The initialiser of the mesh loop: [j = entityMeshes[i]]. *)
Definition meshStart (i : nat) : option nat :=
  ta_get (entityMeshes inflatedData) i.

(** ... and [jlen = lastEntity ? entityMeshes.length : entityMeshes[i + 1]]. *)
Definition meshEnd (i : nat) : option nat :=
  if lastEntity i then Some (ta_length (entityMeshes inflatedData))
  else ta_get (entityMeshes inflatedData) (i + 1).

(** The values [j] takes in the mesh loop of entity [i]; a comparison with
    [undefined] is false, so the loop does not run then. *)
Definition meshRange (i : nat) : nat * nat :=
  match meshStart i, meshEnd i with
  | Some j, Some jlen => (j, jlen - j)
  | _, _ => (0, 0)
  end.

Definition meshId (i j : nat) : string :=
  js_string (entityId i) +:+ ".mesh." +:+ nat_to_string j.

(** The end offset of mesh [j] in a shared array of length [len] whose
    offset table is [table]: [lastMesh ? len : table[j + 1]]. *)
Definition endOffset (j len : nat) (table : TypedArray nat) : option nat :=
  if lastMesh j then Some len else ta_get table (j + 1).

(** The object literal of the [createMesh] call, [color] and [opacity]
    being the two constants computed before it. *)
Definition meshLiteral (i j : nat) (color : Value) (opacity_ : number)
  : Obj :=
  let d := inflatedData in
  obj [ ("id", VStr (meshId i j));
        ("primitive", VStr "triangles");
        ("positions",
          VInts (subarray (positions d) (ta_get (meshPositions d) j)
                   (endOffset j (ta_length (positions d)) (meshPositions d))));
        ("normals",
          VInts (subarray (normals d) (ta_get (meshPositions d) j)
                   (endOffset j (ta_length (positions d)) (meshPositions d))));
        ("indices",
          VInts (subarray (indices d) (ta_get (meshIndices d) j)
                   (endOffset j (ta_length (indices d)) (meshIndices d))));
        ("edgeIndices",
          VInts (subarray (edgeIndices d) (ta_get (meshEdgesIndices d) j)
                   (endOffset j (ta_length (edgeIndices d))
                      (meshEdgesIndices d))));
        ("positionsDecodeMatrix", VFloats (positionsDecodeMatrix d));
        ("color", color);
        ("opacity", VNum opacity_) ].

(** The body of the mesh loop. *)
Definition loadMesh (i : nat) (meshDefaults : Obj) (j : nat)
    (meshIds : list string) : M (list string) :=
  let d := inflatedData in
  let* color :=
    decompressColor
      (subarray (meshColors d) (Some (j * 4)) (Some (j * 4 + 3))) in
  let opacity_ := div255 (ta_get (meshColors d) (j * 4 + 3)) in
  createMesh (utils.apply meshDefaults (meshLiteral i j color opacity_)) ;;
  ret (meshIds ++ [meshId i j]).

Definition entityLiteral (i : nat) (meshIds : list string) : Obj :=
  obj [ ("id", value_of_id (entityId i));
        ("isObject",
          VBool (strictly_one (ta_get (entityIsObjects inflatedData) i)));
        ("meshIds", VStrs meshIds) ].

(** The rest of the body of the entity loop, after the filter. *)
Definition loadMeshes (i : nat) (entityDefaults meshDefaults : Obj)
  : M unit :=
  let '(j, n) := meshRange i in
  let* meshIds := for_loop n j (loadMesh i meshDefaults) [] in
  createEntity (utils.apply entityDefaults (entityLiteral i meshIds)).

(** The body of the entity loop; [ret tt] is [continue]. *)
Definition loadEntity (i : nat) (_ : unit) : M unit :=
  match metaObject i with
  | Some mo =>
      if excludedType mo then ret tt
      else if notIncludedType mo then ret tt
      else
        let props := propsOf mo in
        loadMeshes i (entityDefaultsOf props) (meshDefaultsOf props)
  | None =>
      if excludeUnclassifiedObjects options then ret tt
      else loadMeshes i ∅ ∅
  end.

Definition load : M unit :=
  setPositionsCompression "precompressed" ;;
  setNormalsCompression "precompressed" ;;
  for_loop numEntities 0 loadEntity tt.

End Load.

(** ** Notions used to state the properties *)

(** The calls a computation adds to the builder's log. *)
Definition emitted {A} (m : M A) (st : Store) : list Call :=
  drop (length (calls (performanceModel st)))
       (calls (performanceModel (exec m st))).

Definition isCreateMesh (c : Call) : bool :=
  match c with
  | CreateMesh _ => true
  | CreateEntity _ => false
  end.

Definition isCreateEntity (c : Call) : bool :=
  match c with
  | CreateMesh _ => false
  | CreateEntity _ => true
  end.

(** The three stores of [decompressColor], on the contents of [color2]. *)
Definition paint (color : TypedArray byte) (c : list number) : list number :=
  <[2 := fround (div255 (ta_get color 2))]>
    (<[1 := fround (div255 (ta_get color 1))]>
       (<[0 := fround (div255 (ta_get color 0))]> c)).

(** The store after more calls and after the colours of more meshes have
    gone through [color2]. *)
Definition advance (st : Store) (colors : list (TypedArray byte))
    (cs : list Call) : Store :=
  let pm := performanceModel st in
  mkStore (foldl (fun c color => paint color c) (color2 st) colors)
    (mkPerformanceModel (positionsCompression pm) (normalsCompression pm)
       (calls pm ++ cs)).

Section Trace.

Variable viewer : Viewer.
Variable options : Options.
Variable d : InflatedData.

(** The argument of [decompressColor] for mesh [j]. *)
Definition colorBytes (j : nat) : TypedArray byte :=
  subarray (meshColors d) (Some (j * 4)) (Some (j * 4 + 3)).

(** [meshColors[4j + k] / 255.0] rounded to binary32, for k = 0, 1, 2. *)
Definition decodedColor (j : nat) : list number :=
  [ fround (div255 (ta_get (meshColors d) (j * 4)));
    fround (div255 (ta_get (meshColors d) (j * 4 + 1)));
    fround (div255 (ta_get (meshColors d) (j * 4 + 2))) ].

(** [meshColors[4j + 3] / 255.0]. *)
Definition decodedOpacity (j : nat) : number :=
  div255 (ta_get (meshColors d) (j * 4 + 3)).

(** The type defaults in force for entity [i]. *)
Definition defaultsOf (i : nat) : option Props :=
  match metaObject viewer d i with
  | Some mo => propsOf options mo
  | None => None
  end.

(** The record [createMesh] receives for mesh [j] of entity [i]. *)
Definition meshCfg (i j : nat) : Obj :=
  utils.apply (meshDefaultsOf (defaultsOf i))
    (meshLiteral d i j (VFloat32Ref Color2) (decodedOpacity j)).

(** The mesh indices the loop of entity [i] goes through. *)
Definition meshIndicesOf (i : nat) : list nat :=
  seq (fst (meshRange d i)) (snd (meshRange d i)).

(** The record [createEntity] receives for entity [i]. *)
Definition entityCfg (i : nat) : Obj :=
  utils.apply (entityDefaultsOf (defaultsOf i))
    (entityLiteral d i (map (meshId d i) (meshIndicesOf i))).

Definition entityCalls (i : nat) : list Call :=
  if skipped viewer options d i then []
  else map (fun j => CreateMesh (meshCfg i j)) (meshIndicesOf i)
         ++ [CreateEntity (entityCfg i)].

(** The mesh indices visited for entity [i]. *)
Definition visitedBy (i : nat) : list nat :=
  if skipped viewer options d i then [] else meshIndicesOf i.

(** The mesh indices visited by a whole decode, in order. *)
Definition visitedMeshes : list nat :=
  flat_map visitedBy (seq 0 (numEntities d)).

End Trace.

(** Follows the spec's words (error handling, InconsistentOffsetTableError):
    an offset array's length does not match the declared mesh or entity
    count, or an offset array contains a decreasing value.  The mesh count is
    the length of [meshPositions], the entity count the length of
    [entityIDs]. *)
Fixpoint decreasing (l : list nat) : bool :=
  match l with
  | x :: (y :: _) as rest => (y <? x) || decreasing rest
  | _ => false
  end.

(** Some offset table is inconsistent in the sense above. *)
Definition inconsistentOffsetTable (d : InflatedData) : bool :=
  negb (ta_length (meshIndices d) =? numMeshes d)
  || negb (ta_length (meshEdgesIndices d) =? numMeshes d)
  || negb (ta_length (entityMeshes d) =? length (entityIDs d))
  || decreasing (ta_elements (meshPositions d))
  || decreasing (ta_elements (meshIndices d))
  || decreasing (ta_elements (meshEdgesIndices d))
  || decreasing (ta_elements (entityMeshes d)).

(** Mesh [j]'s slice of a shared array runs from its own offset to the next
    recorded offset of the table. *)
Definition slicedToNext {A} (src : TypedArray A) (table : TypedArray nat)
    (j : nat) (slice : TypedArray A) : Prop :=
  forall b e,
    ta_get table j = Some b -> ta_get table (j + 1) = Some e ->
    b <= e <= ta_length src ->
    ta_buffer slice = ta_buffer src /\
    ta_offset slice = ta_offset src + b /\
    ta_end slice = ta_offset src + e.

(** Mesh [j]'s slice of a shared array runs from its own offset to the end
    of the array. *)
Definition slicedToEnd {A} (src : TypedArray A) (table : TypedArray nat)
    (j : nat) (slice : TypedArray A) : Prop :=
  ta_buffer slice = ta_buffer src /\
  ta_end slice = ta_end src /\
  forall b, ta_get table j = Some b -> b <= ta_length src ->
            ta_offset slice = ta_offset src + b.

From Stdlib Require Import DecimalNat.

(** ** Exceptions *)

(** What a JavaScript call can end in besides a value. *)
Inductive JSError : Type :=
| TypeError                 (* a property read on [undefined] *)
| RangeError                (* a buffer that does not hold whole elements *)
| SyntaxError               (* [JSON.parse] on malformed text *)
| Thrown (message : string). (* whatever a library throws *)

Inductive Outcome (A : Type) : Type :=
| Return (a : A)
| Throw (e : JSError).

Arguments Return {A} _.
Arguments Throw {A} _.

Definition andThen {A B} (m : Outcome A) (f : A -> Outcome B) : Outcome B :=
  match m with
  | Return a => f a
  | Throw e => Throw e
  end.

Notation "'let!' x ':=' m 'in' k" := (andThen m (fun x => k))
  (at level 10, x name, m at level 100, k at level 200).

(** ** Typed arrays over an ArrayBuffer *)

(** The bytes of an [ArrayBuffer]. *)
Abbreviation Block := (list byte).

Definition byte_value (b : byte) : Z := Z.of_N (Byte.to_N b).

(** The element a [Uint16Array] shows for two bytes (little-endian, the
    byte order of the format and of the platforms the viewer runs on). *)
Fixpoint uint16_elements (bytes : Block) : list Z :=
  match bytes with
  | b0 :: b1 :: rest =>
      (byte_value b0 + 256 * byte_value b1)%Z :: uint16_elements rest
  | _ => []
  end.

Fixpoint uint32_elements (bytes : Block) : list Z :=
  match bytes with
  | b0 :: b1 :: b2 :: b3 :: rest =>
      (byte_value b0 + 256 * byte_value b1 + 65536 * byte_value b2
       + 16777216 * byte_value b3)%Z :: uint32_elements rest
  | _ => []
  end.

(** The element an [Int8Array] shows for a byte: two's complement. *)
Definition int8_element (b : byte) : Z :=
  if (byte_value b <? 128)%Z then byte_value b else (byte_value b - 256)%Z.

(** The binary32 value with the bit pattern [w]: sign, eight exponent bits,
    twenty-three fraction bits. *)
Definition binary32_of_bits (w : Z) : spec_float :=
  let s := Z.testbit w 31 in
  let e := Z.land (Z.shiftr w 23) 255 in
  let m := Z.land w (2 ^ 23 - 1) in
  if (e =? 0)%Z then
    match m with
    | Zpos p => S754_finite s p (-149)
    | _ => S754_zero s
    end
  else if (e =? 255)%Z then
    (if (m =? 0)%Z then S754_infinity s else S754_nan)
  else
    match (m + 2 ^ 23)%Z with
    | Zpos p => S754_finite s p (e - 150)
    | _ => S754_nan
    end.

(** [new Uint16Array(buffer)]: a view of the whole buffer, refused when the
    buffer does not hold a whole number of elements. *)
Definition newUint16Array (buffer : Block) : Outcome (TypedArray Z) :=
  if length buffer mod 2 =? 0
  then Return (ta_of_list (uint16_elements buffer))
  else Throw RangeError.

Definition newInt8Array (buffer : Block) : Outcome (TypedArray Z) :=
  Return (ta_of_list (map int8_element buffer)).

Definition newUint8Array (buffer : Block) : Outcome (TypedArray byte) :=
  Return (ta_of_list buffer).

Definition newUint32Array (buffer : Block) : Outcome (TypedArray Z) :=
  if length buffer mod 4 =? 0
  then Return (ta_of_list (uint32_elements buffer))
  else Throw RangeError.

(** The same constructor for the arrays that [load] uses as offsets. *)
Definition newUint32Offsets (buffer : Block) : Outcome (TypedArray nat) :=
  if length buffer mod 4 =? 0
  then Return (ta_of_list (map Z.to_nat (uint32_elements buffer)))
  else Throw RangeError.

Definition newFloat32Array (buffer : Block) : Outcome (TypedArray number) :=
  if length buffer mod 4 =? 0
  then Return (ta_of_list
                 (map (fun w => of_binary32 (binary32_of_bits w))
                      (uint32_elements buffer)))
  else Throw RangeError.

(** ** extract *)

Module Deflated.

(** [deflatedData]: the twelve blocks by name; [None] is [undefined], the
    value of an element that [elements] does not have. *)
Record t : Type := mk {
  positions : option Block;
  normals : option Block;
  indices : option Block;
  edgeIndices : option Block;
  meshPositions : option Block;
  meshIndices : option Block;
  meshEdgesIndices : option Block;
  meshColors : option Block;
  entityIDs : option Block;
  entityMeshes : option Block;
  entityIsObjects : option Block;
  positionsDecodeMatrix : option Block
}.

End Deflated.

Definition extract (elements : list Block) : Deflated.t :=
  Deflated.mk (elements !! 0) (elements !! 1) (elements !! 2)
    (elements !! 3) (elements !! 4) (elements !! 5) (elements !! 6)
    (elements !! 7) (elements !! 8) (elements !! 9) (elements !! 10)
    (elements !! 11).

(** ** inflate *)

(** The decompressor handed to [inflate].  [pako_buffer data] is the content
    of [pako.inflate(data).buffer] and [pako_string data] the value of
    [pako.inflate(data, {to: 'string'})]; either may throw. *)
Record Pako : Type := mkPako {
  pako_buffer : option Block -> Outcome Block;
  pako_string : option Block -> Outcome string
}.

Module Inflated.

(** The object [inflate] returns: [entityIDs] is still text. *)
Record t : Type := mk {
  positions : TypedArray Z;
  normals : TypedArray Z;
  indices : TypedArray Z;
  edgeIndices : TypedArray Z;
  meshPositions : TypedArray nat;
  meshIndices : TypedArray nat;
  meshEdgesIndices : TypedArray nat;
  meshColors : TypedArray byte;
  entityIDs : string;
  entityMeshes : TypedArray nat;
  entityIsObjects : TypedArray byte;
  positionsDecodeMatrix : TypedArray number
}.

End Inflated.

(** [new XArray(pako.inflate(block).buffer)]. *)
Definition inflated {A} (pako : Pako) (new : Block -> Outcome A)
    (block : option Block) : Outcome A :=
  let! buffer := pako_buffer pako block in new buffer.

(** [inflate(deflatedData, pako)]; [pako = None] is a call that leaves the
    second argument out, so that [pako.inflate] reads a property of
    [undefined].  The properties of the object literal are evaluated in
    the order they are written. *)
Definition inflate (deflatedData : Deflated.t) (pako : option Pako)
  : Outcome Inflated.t :=
  match pako with
  | None => Throw TypeError
  | Some pako =>
      let! positions :=
        inflated pako newUint16Array (Deflated.positions deflatedData) in
      let! normals :=
        inflated pako newInt8Array (Deflated.normals deflatedData) in
      let! indices :=
        inflated pako newUint32Array (Deflated.indices deflatedData) in
      let! edgeIndices :=
        inflated pako newUint32Array (Deflated.edgeIndices deflatedData) in
      let! meshPositions :=
        inflated pako newUint32Offsets (Deflated.meshPositions deflatedData) in
      let! meshIndices :=
        inflated pako newUint32Offsets (Deflated.meshIndices deflatedData) in
      let! meshEdgesIndices :=
        inflated pako newUint32Offsets
          (Deflated.meshEdgesIndices deflatedData) in
      let! meshColors :=
        inflated pako newUint8Array (Deflated.meshColors deflatedData) in
      let! entityIDs := pako_string pako (Deflated.entityIDs deflatedData) in
      let! entityMeshes :=
        inflated pako newUint32Offsets (Deflated.entityMeshes deflatedData) in
      let! entityIsObjects :=
        inflated pako newUint8Array (Deflated.entityIsObjects deflatedData) in
      let! positionsDecodeMatrix :=
        inflated pako newFloat32Array
          (Deflated.positionsDecodeMatrix deflatedData) in
      Return (Inflated.mk positions normals indices edgeIndices
                meshPositions meshIndices meshEdgesIndices meshColors
                entityIDs entityMeshes entityIsObjects positionsDecodeMatrix)
  end.

(** ** load from the object of inflate, and parse *)

Section Parse.

(** [JSON.parse] on the text of [entityIDs], for texts that are an array of
    strings or are malformed. *)
Variable JSON_parse : string -> Outcome (list string).

(** The constants [load] reads from [inflatedData], once [entityIDs] is
    parsed. *)
Definition parsedData (raw : Inflated.t) (ids : list string)
  : InflatedData :=
  mkInflatedData (Inflated.positions raw) (Inflated.normals raw)
    (Inflated.indices raw) (Inflated.edgeIndices raw)
    (Inflated.meshPositions raw) (Inflated.meshIndices raw)
    (Inflated.meshEdgesIndices raw) (Inflated.meshColors raw) ids
    (Inflated.entityMeshes raw) (Inflated.entityIsObjects raw)
    (Inflated.positionsDecodeMatrix raw).

(** [load] as [parse] calls it: the two assignments to the builder, then
    [JSON.parse], then the entity loop. *)
Definition loadInflated (viewer : Viewer) (options : Options)
    (raw : Inflated.t) : M (Outcome unit) :=
  setPositionsCompression "precompressed" ;;
  setNormalsCompression "precompressed" ;;
  match JSON_parse (Inflated.entityIDs raw) with
  | Throw e => ret (Throw e)
  | Return ids =>
      let d := parsedData raw ids in
      for_loop (numEntities d) 0 (loadEntity viewer options d) tt ;;
      ret (Return tt)
  end.

(** [ParserV1.parse]: [inflate] is called with [deflatedData] alone. *)
Definition parse (viewer : Viewer) (options : Options)
    (elements : list Block) : M (Outcome unit) :=
  let deflatedData := extract elements in
  match inflate deflatedData None with
  | Throw e => ret (Throw e)
  | Return inflatedData => loadInflated viewer options inflatedData
  end.

End Parse.

(** ** More notions used to state properties *)

(** The ["id"] fields of the [createMesh] calls of a log, in order. *)
Definition createdMeshIds (cs : list Call) : list Value :=
  omap (fun c => match c with
                 | CreateMesh cfg => cfg !! "id"
                 | CreateEntity _ => None
                 end) cs.

(** The options with their three filters taken away. *)
Definition withoutFilters (o : Options) : Options :=
  mkOptions None None (objectDefaults o) false.

Definition is_nan (x : number) : bool :=
  match x with
  | S754_nan => true
  | _ => false
  end.

(** The 256 bytes, in order of value. *)
Definition all_bytes : list byte :=
  omap Byte.of_nat (seq 0 256).

(** [x < y] on numbers. *)
Definition ltb (x y : number) : bool := SFltb x y.

(** The colour channel and the opacity decoded from a byte. *)
Definition channel (b : byte) : number := fround (div (of_byte b) (of_Z 255)).
Definition alpha (b : byte) : number := div (of_byte b) (of_Z 255).

(** A view that lies inside its buffer. *)
Definition ta_valid {A} (a : TypedArray A) : Prop :=
  ta_end a <= length (ta_buffer a).

(** [slice] is a window of [src]: the same buffer, and no element outside
    the elements of [src]. *)
Definition ta_within {A} (slice src : TypedArray A) : Prop :=
  ta_buffer slice = ta_buffer src /\
  ta_offset src <= ta_offset slice /\
  ta_end slice <= ta_end src.

(** The little-endian bytes of a 16-bit and of a 32-bit value. *)
Definition byte_of_Z (z : Z) : byte :=
  default x00 (Byte.of_N (Z.to_N (z mod 256))).

Definition le16 (z : Z) : Block :=
  [byte_of_Z z; byte_of_Z (z / 256)].

Definition le32 (z : Z) : Block :=
  [byte_of_Z z; byte_of_Z (z / 256); byte_of_Z (z / 65536);
   byte_of_Z (z / 16777216)].

(** The offsets of a table do not decrease and stay inside an array of
    length [len]. *)
Fixpoint ascending_to (len : nat) (offsets : list nat) : Prop :=
  match offsets with
  | [] => True
  | [x] => x <= len
  | x :: ((y :: _) as rest) => x <= y /\ ascending_to len rest
  end.

(** The elements of mesh [j]'s slice of [src], for the offset table
    [table]: the view the [createMesh] literal holds. *)
Definition meshSlice {A} (d : InflatedData) (src : TypedArray A)
    (table : TypedArray nat) (j : nat) : TypedArray A :=
  subarray src (ta_get table j) (endOffset d j (ta_length src) table).

(** The character ".". *)
Definition full_stop : Ascii.ascii := Ascii.ascii_of_nat 46.

(** The number of full stops in a string. *)
Fixpoint dots (s : string) : nat :=
  match s with
  | EmptyString => 0
  | String c rest => (if Ascii.eqb c full_stop then 1 else 0) + dots rest
  end.

(** A byte with its decoded channel and opacity. *)
Definition decoded (b : byte) : Z * (number * number) :=
  (byte_value b, (channel b, alpha b)).

(** The decoded values of all bytes. *)
Definition decoding_table : list (Z * (number * number)) :=
  map decoded all_bytes.

(** Do channel and opacity grow strictly with the byte, on every pair of
    entries of a table? *)
Definition increasing_on (table : list (Z * (number * number))) : bool :=
  forallb (fun x =>
    forallb (fun y =>
      implb (fst x <? fst y)%Z
            (ltb (fst (snd x)) (fst (snd y))
             && ltb (snd (snd x)) (snd (snd y))))
      table)
    table.

(** The array [a] is what [new XArray(pako.inflate(block).buffer)] makes of
    a block whose elements take [size] bytes: a view of a whole buffer with
    one element per [size] bytes that the decompressor returned. *)
Definition decodes {A} (pako : Pako) (block : option Block) (size : nat)
    (a : TypedArray A) : Prop :=
  exists buffer,
    pako_buffer pako block = Return buffer /\
    ta_offset a = 0 /\
    ta_length a = length (ta_buffer a) /\
    size * ta_length a = length buffer.

(** [lo <= z < hi] for every element of the buffer of [a]. *)
Definition elements_between (lo hi : Z) (a : TypedArray Z) : Prop :=
  Forall (fun z => (lo <= z < hi)%Z) (ta_buffer a).

Definition offsets_below (hi : Z) (a : TypedArray nat) : Prop :=
  Forall (fun n => (Z.of_nat n < hi)%Z) (ta_buffer a).

(** ** Proof steps for inflate *)

(** One constructor call of [inflate] that succeeded. *)
Ltac inflated_step H :=
  lazymatch type of H with
  | andThen (inflated ?p ?new ?blk) _ = Return _ =>
      let b := fresh "buffer" in
      let Eb := fresh "Ebuffer" in
      let a := fresh "array" in
      let Ea := fresh "Earray" in
      unfold inflated at 1 in H;
      destruct (pako_buffer p blk) as [b|] eqn:Eb; [|discriminate H];
      cbn [andThen] in H;
      destruct (new b) as [a|] eqn:Ea; [|discriminate H];
      cbn [andThen] in H
  | andThen (pako_string ?p ?blk) _ = Return _ =>
      let s := fresh "text" in
      let Es := fresh "Etext" in
      destruct (pako_string p blk) as [s|] eqn:Es; [|discriminate H];
      cbn [andThen] in H
  end.

Ltac inflate_inversion H :=
  unfold inflate in H; do 12 inflated_step H;
  injection H as <-; cbn [Inflated.positions Inflated.normals
    Inflated.indices Inflated.edgeIndices Inflated.meshPositions
    Inflated.meshIndices Inflated.meshEdgesIndices Inflated.meshColors
    Inflated.entityIDs Inflated.entityMeshes Inflated.entityIsObjects
    Inflated.positionsDecodeMatrix].

(** ** Sample inputs *)

Module Samples.

(** No classification metadata, no filter, no defaults. *)
Definition plainViewer : Viewer := mkViewer ∅.
Definition plainOptions : Options := mkOptions None None None false.

Definition identityMatrix : TypedArray number :=
  ta_of_list [ of_Z 1; of_Z 0; of_Z 0; of_Z 0;
               of_Z 0; of_Z 1; of_Z 0; of_Z 0;
               of_Z 0; of_Z 0; of_Z 1; of_Z 0;
               of_Z 0; of_Z 0; of_Z 0; of_Z 1 ].

(** Two triangles: six vertices, one triangle per mesh. *)
Definition twoTrianglePositions : TypedArray Z :=
  ta_of_list [ 0; 0; 0;  9; 0; 0;  0; 9; 0;
               0; 0; 5;  9; 0; 5;  0; 9; 5 ]%Z.
Definition twoTriangleNormals : TypedArray Z :=
  ta_of_list [ 0; 0; 127;  0; 0; 127;  0; 0; 127;
               0; 0; -127; 0; 0; -127; 0; 0; -127 ]%Z.
Definition twoTriangleIndices : TypedArray Z :=
  ta_of_list [ 0; 1; 2;  0; 1; 2 ]%Z.
Definition twoTriangleEdges : TypedArray Z :=
  ta_of_list [ 0; 1; 1; 2; 2; 0;  0; 1; 1; 2; 2; 0 ]%Z.
Definition twoColors : TypedArray byte :=
  ta_of_list [ xff; x00; x80; x40;  x0a; x14; x1e; xff ].

(** One entity that owns both meshes of a two-mesh container. *)
Definition oneEntityTwoMeshes : InflatedData :=
  mkInflatedData twoTrianglePositions twoTriangleNormals
    twoTriangleIndices twoTriangleEdges
    (ta_of_list [0; 9]) (ta_of_list [0; 3]) (ta_of_list [0; 6])
    twoColors ["wall-1"] (ta_of_list [0]) (ta_of_list [x01])
    identityMatrix.

(** Two entities over a single mesh: the second entity owns no mesh. *)
Definition twoEntitiesOneMesh : InflatedData :=
  mkInflatedData
    (ta_of_list [ 0; 0; 0;  9; 0; 0;  0; 9; 0 ]%Z)
    (ta_of_list [ 0; 0; 127;  0; 0; 127;  0; 0; 127 ]%Z)
    (ta_of_list [ 0; 1; 2 ]%Z)
    (ta_of_list [ 0; 1; 1; 2; 2; 0 ]%Z)
    (ta_of_list [0]) (ta_of_list [0]) (ta_of_list [0])
    (ta_of_list [ xff; x00; x80; x40 ])
    ["wall-1"; "site"] (ta_of_list [0; 1]) (ta_of_list [x01; x00])
    identityMatrix.

(** Two entities with one mesh each; [meshPositions] decreases. *)
Definition decreasingMeshPositions : InflatedData :=
  mkInflatedData twoTrianglePositions twoTriangleNormals
    twoTriangleIndices twoTriangleEdges
    (ta_of_list [9; 0]) (ta_of_list [0; 3]) (ta_of_list [0; 6])
    twoColors ["wall-1"; "door-1"] (ta_of_list [0; 1])
    (ta_of_list [x01; x01]) identityMatrix.

(** Two entities with one mesh each, every table consistent. *)
Definition twoEntities : InflatedData :=
  mkInflatedData twoTrianglePositions twoTriangleNormals
    twoTriangleIndices twoTriangleEdges
    (ta_of_list [0; 9]) (ta_of_list [0; 3]) (ta_of_list [0; 6])
    twoColors ["wall-1"; "door-1"] (ta_of_list [0; 1])
    (ta_of_list [x01; x00]) identityMatrix.

(** Three entities over three meshes with entityMeshes = [0, 0, 2]. *)
Definition threeEntities : InflatedData :=
  mkInflatedData
    (ta_of_list [ 0; 0; 0;  9; 0; 0;  0; 9; 0;
                  0; 0; 5;  9; 0; 5;  0; 9; 5;
                  0; 0; 7;  9; 0; 7;  0; 9; 7 ]%Z)
    (ta_of_list [ 0; 0; 127;  0; 0; 127;  0; 0; 127;
                  0; 0; -127; 0; 0; -127; 0; 0; -127;
                  0; 0; 127;  0; 0; 127;  0; 0; 127 ]%Z)
    (ta_of_list [ 0; 1; 2;  0; 1; 2;  0; 1; 2 ]%Z)
    (ta_of_list [ 0; 1; 1; 2; 2; 0;  0; 1; 1; 2; 2; 0;
                  0; 1; 1; 2; 2; 0 ]%Z)
    (ta_of_list [0; 9; 18]) (ta_of_list [0; 3; 6]) (ta_of_list [0; 6; 12])
    (ta_of_list [ xff; x00; x80; x40;  x0a; x14; x1e; xff;
                  x00; xff; x00; x80 ])
    ["site"; "wall-1"; "door-1"] (ta_of_list [0; 0; 2])
    (ta_of_list [x00; x01; x01]) identityMatrix.

(** One entity, one mesh: entityMeshes = [0], meshPositions = [0]. *)
Definition singleMesh : InflatedData :=
  mkInflatedData
    (ta_of_list [ 0; 0; 0;  9; 0; 0;  0; 9; 0 ]%Z)
    (ta_of_list [ 0; 0; 127;  0; 0; 127;  0; 0; 127 ]%Z)
    (ta_of_list [ 0; 1; 2 ]%Z)
    (ta_of_list [ 0; 1; 1; 2; 2; 0 ]%Z)
    (ta_of_list [0]) (ta_of_list [0]) (ta_of_list [0])
    (ta_of_list [ xff; x00; x80; x40 ])
    ["wall-1"] (ta_of_list [0]) (ta_of_list [x01]) identityMatrix.

(** Metadata that classifies "wall-1" as a Wall and "door-1" as a Door. *)
Definition classifiedViewer : Viewer :=
  mkViewer (<["wall-1" := mkMetaObject (Some "Wall")]>
            (<["door-1" := mkMetaObject (Some "Door")]> ∅)).

(** Metadata that knows "wall-1" but has an empty type for it. *)
Definition untypedViewer : Viewer :=
  mkViewer (<["wall-1" := mkMetaObject (Some "")]> ∅).

(** Walls are drawn red and half transparent by default. *)
Definition redWalls : Options :=
  mkOptions None None
    (Some (<["Wall" := mkProps None None
                         (Some [of_Z 1; of_Z 0; of_Z 0])
                         (Some (div (of_Z 1) (of_Z 2)))]> ∅))
    false.

Definition redWallProps : Props :=
  mkProps None None (Some [of_Z 1; of_Z 0; of_Z 0])
    (Some (div (of_Z 1) (of_Z 2))).

Definition excludeWalls : Options :=
  mkOptions (Some (<["Wall" := true]> ∅)) None None false.

Definition onlyDoors : Options :=
  mkOptions None (Some (<["Door" := true]> ∅)) None false.

Definition onlyDoorsClassified : Options :=
  mkOptions None (Some (<["Door" := true]> ∅)) None true.

End Samples.

(** ** Sample blocks *)

Module Blocks.

(** A decompressor for blocks that are stored as they are; the text of a
    block is left to [JSON.parse]. *)
Definition stored : Pako :=
  mkPako (fun block => match block with
                       | Some b => Return b
                       | None => Throw (Thrown "no data")
                       end)
         (fun block => match block with
                       | Some _ => Return "entity identifiers"
                       | None => Throw (Thrown "no data")
                       end).

(** Twelve blocks: one triangle, one mesh, one entity. *)
Definition oneTriangle : list Block :=
  [ [x00; x00; x00; x00; x00; x00;  x09; x00; x00; x00; x00; x00;
     x00; x00; x09; x00; x00; x00];
    [x00; x00; x7f;  x00; x00; x7f;  x00; x00; x81];
    [x00; x00; x00; x00;  x01; x00; x00; x00;  x02; x00; x00; x00];
    [x00; x00; x00; x00;  x01; x00; x00; x00];
    [x00; x00; x00; x00];
    [x00; x00; x00; x00];
    [x00; x00; x00; x00];
    [xff; x00; x80; x40];
    [];
    [x00; x00; x00; x00];
    [x01];
    [x00; x00; x80; x3f;  x00; x00; x00; xbf] ].

(** What [inflate] makes of them. *)
Definition oneTriangleInflated : Inflated.t :=
  Inflated.mk
    (ta_of_list [0; 0; 0; 9; 0; 0; 0; 9; 0]%Z)
    (ta_of_list [0; 0; 127; 0; 0; 127; 0; 0; -127]%Z)
    (ta_of_list [0; 1; 2]%Z)
    (ta_of_list [0; 1]%Z)
    (ta_of_list [0]) (ta_of_list [0]) (ta_of_list [0])
    (ta_of_list [xff; x00; x80; x40])
    "entity identifiers"
    (ta_of_list [0]) (ta_of_list [x01])
    (ta_of_list [of_Z 1; div (of_Z (-1)) (of_Z 2)]).

(** The same blocks with a byte missing from the positions. *)
Definition oddPositions : list Block :=
  [x00; x00; x00] :: drop 1 oneTriangle.

(** [JSON.parse] on a text that lists the one entity, and on a text that is
    malformed. *)
Definition oneWall : string -> Outcome (list string) :=
  fun _ => Return ["wall-1"].

Definition malformed : string -> Outcome (list string) :=
  fun _ => Throw SyntaxError.

End Blocks.

(** ** Sample defaults *)

Module Defaults.

(** Everything without a type is hidden by default. *)
Definition hiddenByDefault : Options :=
  mkOptions None None
    (Some (<["DEFAULT" := mkProps (Some false) None None None]> ∅)) false.

Definition hiddenProps : Props := mkProps (Some false) (Some true) None None.

(** Walls are hidden, and pickable as they are anyway. *)
Definition hiddenWalls : Options :=
  mkOptions None None (Some (<["Wall" := hiddenProps]> ∅)) false.

End Defaults.

(** * Properties *)

(** ** Typed arrays *)

Section TypedArrayFacts.

Context {A : Type}.
Implicit Types a : TypedArray A.

Lemma subarray_buffer a b e : ta_buffer (subarray a b e) = ta_buffer a.
Proof. reflexivity. Qed.

Lemma subarray_length a b e :
  ta_length (subarray a (Some b) (Some e))
  = Nat.min e (ta_length a) - Nat.min b (ta_length a).
Proof. reflexivity. Qed.

(** A slice whose end argument is the length of the array ends where the
    array ends, wherever it starts. *)
Lemma subarray_to_length_end a b :
  ta_end (subarray a b (Some (ta_length a))) = ta_end a.
Proof.
  unfold ta_end, subarray; simpl. destruct b as [b|]; simpl; lia.
Qed.

Lemma subarray_within a b e :
  b <= e <= ta_length a ->
  ta_offset (subarray a (Some b) (Some e)) = ta_offset a + b /\
  ta_length (subarray a (Some b) (Some e)) = e - b /\
  ta_end (subarray a (Some b) (Some e)) = ta_offset a + e.
Proof.
  intros H. unfold ta_end, subarray; simpl. lia.
Qed.

(** Reading through a slice is reading the array at the shifted index. *)
Lemma subarray_get a b e k :
  b + k < e ->
  ta_get (subarray a (Some b) (Some e)) k = ta_get a (b + k).
Proof.
  intros H. unfold ta_get, subarray; simpl.
  repeat case_decide; try lia.
  - f_equal. lia.
  - reflexivity.
Qed.

End TypedArrayFacts.

(** ** The store *)

Lemma advance_nil st : advance st [] [] = st.
Proof.
  destruct st as [c [p n l]]. unfold advance; simpl. by rewrite app_nil_r.
Qed.

Lemma advance_advance st js cs js' cs' :
  advance (advance st js cs) js' cs' = advance st (js ++ js') (cs ++ cs').
Proof.
  unfold advance; simpl. by rewrite foldl_app, app_assoc.
Qed.

Lemma advance_calls st js cs :
  calls (performanceModel (advance st js cs))
  = calls (performanceModel st) ++ cs.
Proof. reflexivity. Qed.

Lemma paint_length color c : length (paint color c) = length c.
Proof. unfold paint. by rewrite !length_insert. Qed.

Lemma paint_three color c :
  length c = 3 ->
  paint color c = [ fround (div255 (ta_get color 0));
                    fround (div255 (ta_get color 1));
                    fround (div255 (ta_get color 2)) ].
Proof.
  intros H. destruct c as [|x [|y [|z [|]]]]; try discriminate. reflexivity.
Qed.

Lemma foldl_paint_length colors c :
  length (foldl (fun c color => paint color c) c colors) = length c.
Proof.
  revert c. induction colors as [|x colors IH]; intros c; simpl; [done|].
  by rewrite IH, paint_length.
Qed.

Lemma foldl_paint_last colors color c :
  length c = 3 ->
  foldl (fun c color => paint color c) c (colors ++ [color])
  = paint color [of_Z 0; of_Z 0; of_Z 0].
Proof.
  intros H. rewrite foldl_app. simpl.
  rewrite !paint_three; [done..|]. by rewrite foldl_paint_length.
Qed.

Lemma emitted_advance {A} (m : M A) st js cs :
  exec m st = advance st js cs -> emitted m st = cs.
Proof.
  intros H. unfold emitted. rewrite H, advance_calls.
  by rewrite drop_app_length.
Qed.

(** ** Running the loops *)

Section LoadFacts.

Variable viewer : Viewer.
Variable options : Options.
Variable d : InflatedData.

Lemma colorBytes_get j k :
  k < 3 -> ta_get (colorBytes d j) k = ta_get (meshColors d) (j * 4 + k).
Proof.
  intros H. unfold colorBytes. apply subarray_get. lia.
Qed.

Lemma paint_colorBytes j c :
  length c = 3 -> paint (colorBytes d j) c = decodedColor d j.
Proof.
  intros H. rewrite paint_three by done. unfold decodedColor.
  rewrite !colorBytes_get by lia. by rewrite Nat.add_0_r.
Qed.

Lemma decompressColor_run color st :
  decompressColor color st = (VFloat32Ref Color2, advance st [color] []).
Proof.
  destruct st as [c [p n l]].
  unfold decompressColor, bind, setColor2, ret, advance, paint; simpl.
  by rewrite app_nil_r.
Qed.

Lemma loadMesh_run i md j ids st :
  loadMesh d i md j ids st
  = (ids ++ [meshId d i j],
     advance st [colorBytes d j]
       [CreateMesh (utils.apply md
          (meshLiteral d i j (VFloat32Ref Color2) (decodedOpacity d j)))]).
Proof.
  unfold loadMesh, bind. rewrite decompressColor_run.
  unfold createMesh, record, ret, advance; simpl. by rewrite app_nil_r.
Qed.

Lemma meshLoop_run i md n : forall j ids st,
  for_loop n j (loadMesh d i md) ids st
  = (ids ++ map (meshId d i) (seq j n),
     advance st (map (colorBytes d) (seq j n))
       (map (fun j => CreateMesh (utils.apply md
               (meshLiteral d i j (VFloat32Ref Color2) (decodedOpacity d j))))
            (seq j n))).
Proof.
  induction n as [|n IH]; intros j ids st; simpl.
  - unfold ret. by rewrite app_nil_r, advance_nil.
  - unfold bind at 1. rewrite loadMesh_run, IH, advance_advance.
    by rewrite <- app_assoc.
Qed.

Lemma loadMeshes_run i ed md st :
  loadMeshes d i ed md st
  = (tt, advance st (map (colorBytes d) (meshIndicesOf d i))
           (map (fun j => CreateMesh (utils.apply md
                   (meshLiteral d i j (VFloat32Ref Color2)
                      (decodedOpacity d j))))
                (meshIndicesOf d i)
            ++ [CreateEntity (utils.apply ed
                  (entityLiteral d i
                     (map (meshId d i) (meshIndicesOf d i))))])).
Proof.
  unfold loadMeshes, meshIndicesOf.
  destruct (meshRange d i) as [j n]; simpl.
  unfold bind. rewrite meshLoop_run. simpl.
  unfold createEntity, record, advance; simpl.
  by rewrite <- app_assoc.
Qed.

Lemma loadEntity_run i st :
  loadEntity viewer options d i tt st
  = (tt, advance st (map (colorBytes d) (visitedBy viewer options d i))
           (entityCalls viewer options d i)).
Proof.
  unfold loadEntity, entityCalls, visitedBy, skipped, meshCfg, entityCfg,
    defaultsOf.
  destruct (metaObject viewer d i) as [mo|].
  - destruct (excludedType options mo); simpl.
    { unfold ret. by rewrite advance_nil. }
    destruct (notIncludedType options mo); simpl.
    { unfold ret. by rewrite advance_nil. }
    apply loadMeshes_run.
  - destruct (excludeUnclassifiedObjects options); simpl.
    { unfold ret. by rewrite advance_nil. }
    apply loadMeshes_run.
Qed.

Lemma entityLoop_run n : forall s st,
  for_loop n s (loadEntity viewer options d) tt st
  = (tt, advance st
           (map (colorBytes d)
              (flat_map (visitedBy viewer options d) (seq s n)))
           (flat_map (entityCalls viewer options d) (seq s n))).
Proof.
  induction n as [|n IH]; intros s st; simpl.
  - unfold ret. by rewrite advance_nil.
  - unfold bind at 1. rewrite loadEntity_run, IH, advance_advance.
    by rewrite map_app.
Qed.

(** The builder's log after [load]: the old log, then the calls of each
    entity in turn. *)
Lemma load_emitted st :
  emitted (load viewer options d) st
  = flat_map (entityCalls viewer options d) (seq 0 (numEntities d)).
Proof.
  unfold emitted, exec, load, bind; simpl.
  rewrite entityLoop_run; simpl. by rewrite drop_app_length.
Qed.

Lemma loadEntity_emitted i st :
  emitted (loadEntity viewer options d i tt) st
  = entityCalls viewer options d i.
Proof.
  apply emitted_advance with (js := map (colorBytes d)
                                      (visitedBy viewer options d i)).
  unfold exec. by rewrite loadEntity_run.
Qed.

(** The colour buffer after [load]. *)
Lemma load_color2 st :
  color2 (exec (load viewer options d) st)
  = foldl (fun c color => paint color c) (color2 st)
      (map (colorBytes d) (visitedMeshes viewer options d)).
Proof.
  unfold exec, load, bind; simpl. by rewrite entityLoop_run.
Qed.

(** [color2] stays an array of three numbers. *)
Lemma load_color2_length st :
  length (color2 (exec (load viewer options d) st)) = length (color2 st).
Proof. rewrite load_color2. apply foldl_paint_length. Qed.

End LoadFacts.

(** ** Records handed to the builder *)

Section RecordFacts.

Variable viewer : Viewer.
Variable options : Options.
Variable d : InflatedData.

(** A property of the literal is a property of the record, whatever the
    defaults are. *)
Lemma meshCfg_literal_field i j k v :
  meshLiteral d i j (VFloat32Ref Color2) (decodedOpacity d j) !! k = Some v ->
  meshCfg viewer options d i j !! k = Some v.
Proof. intros H. unfold meshCfg, utils.apply. by apply lookup_union_Some_l. Qed.

Lemma entityCfg_literal_field i k v :
  entityLiteral d i (map (meshId d i) (meshIndicesOf d i)) !! k = Some v ->
  entityCfg viewer options d i !! k = Some v.
Proof. intros H. unfold entityCfg, utils.apply. by apply lookup_union_Some_l. Qed.

Lemma meshCfg_id i j :
  meshCfg viewer options d i j !! "id" = Some (VStr (meshId d i j)).
Proof. by apply meshCfg_literal_field. Qed.

Lemma meshCfg_color i j :
  meshCfg viewer options d i j !! "color" = Some (VFloat32Ref Color2).
Proof. by apply meshCfg_literal_field. Qed.

Lemma meshCfg_opacity i j :
  meshCfg viewer options d i j !! "opacity"
  = Some (VNum (decodedOpacity d j)).
Proof. by apply meshCfg_literal_field. Qed.

Lemma entityCfg_id i :
  entityCfg viewer options d i !! "id" = Some (value_of_id (entityId d i)).
Proof. by apply entityCfg_literal_field. Qed.

Lemma entityCfg_meshIds i :
  entityCfg viewer options d i !! "meshIds"
  = Some (VStrs (map (meshId d i) (meshIndicesOf d i))).
Proof. by apply entityCfg_literal_field. Qed.

(** The entity defaults ("visible", "pickable") and the entity literal
    ("id", "isObject", "meshIds") share no property, so the entity record
    does not depend on which side a merge prefers. *)
Lemma entity_merge_order_irrelevant i props ids :
  utils.apply (entityDefaultsOf props) (entityLiteral d i ids)
  = entityDefaultsOf props ∪ entityLiteral d i ids.
Proof.
  unfold utils.apply, entityLiteral, obj, entityDefaultsOf.
  destruct props as [[[[|]|] [[|]|] c o]|]; reflexivity.
Qed.

(** The mesh defaults only have "color" and "opacity": every other
    property of the mesh record is the literal's whichever side a merge
    prefers. *)
Lemma mesh_merge_order_irrelevant i j props c x k :
  k <> "color" -> k <> "opacity" ->
  utils.apply (meshDefaultsOf props) (meshLiteral d i j c x) !! k
  = (meshDefaultsOf props ∪ meshLiteral d i j c x) !! k.
Proof.
  intros Hc Ho.
  assert (Hnone : meshDefaultsOf props !! k = None).
  { unfold meshDefaultsOf.
    destruct props as [[v pk [cz|] [oz|]]|]; simpl;
      rewrite ?lookup_insert_ne by congruence; apply lookup_empty. }
  unfold utils.apply. rewrite !lookup_union, Hnone.
  by destruct (meshLiteral d i j c x !! k).
Qed.

(** Every [createMesh] call of a decode belongs to a mesh index in the
    range of an entity that passed the filter. *)
Lemma load_emitted_mesh st cfg :
  CreateMesh cfg ∈ emitted (load viewer options d) st ->
  exists i j,
    i < numEntities d /\ skipped viewer options d i = false /\
    j ∈ meshIndicesOf d i /\ cfg = meshCfg viewer options d i j.
Proof.
  rewrite load_emitted, list_elem_of_In, in_flat_map.
  intros (i & Hi & Hin). apply in_seq in Hi.
  unfold entityCalls in Hin.
  destruct (skipped viewer options d i) eqn:E; [destruct Hin|].
  apply in_app_or in Hin as [Hin|[Hin|[]]]; [|discriminate].
  apply in_map_iff in Hin as (j & Hj & Hjin). inversion Hj; subst.
  exists i, j. rewrite list_elem_of_In. repeat split; [lia|done..].
Qed.

Lemma lastMesh_true j :
  lastMesh d j = true <-> (Z.of_nat j = Z.of_nat (numMeshes d) - 1)%Z.
Proof. unfold lastMesh. apply Z.eqb_eq. Qed.

Lemma lastMesh_false j : j + 1 < numMeshes d -> lastMesh d j = false.
Proof. intros H. unfold lastMesh. apply Z.eqb_neq. lia. Qed.

Lemma lastEntity_false i : i + 1 < numEntities d -> lastEntity d i = false.
Proof. intros H. unfold lastEntity. apply Z.eqb_neq. lia. Qed.

(** The end of the last entity's mesh range is the number of entities. *)
Lemma meshEnd_lastEntity i :
  lastEntity d i = true -> meshEnd d i = Some (numEntities d).
Proof. intros H. unfold meshEnd. by rewrite H. Qed.

Lemma slicedToEnd_subarray {A} (src : TypedArray A) table j :
  slicedToEnd src table j
    (subarray src (ta_get table j) (Some (ta_length src))).
Proof.
  split; [reflexivity|]. split; [apply subarray_to_length_end|].
  intros b Hb Hle. rewrite Hb. unfold subarray; simpl. lia.
Qed.

Lemma slicedToNext_subarray {A} (src : TypedArray A) table j :
  slicedToNext src table j
    (subarray src (ta_get table j) (ta_get table (j + 1))).
Proof.
  intros b e Hb He Hle. rewrite Hb, He. split; [reflexivity|].
  destruct (subarray_within src b e Hle) as (H1 & _ & H3). done.
Qed.

End RecordFacts.

(** ** The colour codec on every byte *)

Lemma div255_unit (b : byte) :
  in_unit_interval (div (of_byte b) (of_Z 255)) = true.
Proof. destruct b; vm_compute; reflexivity. Qed.

Lemma fround_div255_unit (b : byte) :
  in_unit_interval (fround (div (of_byte b) (of_Z 255))) = true.
Proof. destruct b; vm_compute; reflexivity. Qed.

(** * The claims *)

Import Samples.

(** ** The model on two small containers *)

(** Two entities with one mesh each: mesh 0 gets the first nine positions
    and the first three indices, mesh 1 the rest of both arrays. *)
Example twoEntities_slices :
  meshCfg plainViewer plainOptions twoEntities 0 0 !! "positions"
  = Some (VInts (mkTypedArray (ta_buffer twoTrianglePositions) 0 9)) /\
  meshCfg plainViewer plainOptions twoEntities 1 1 !! "positions"
  = Some (VInts (mkTypedArray (ta_buffer twoTrianglePositions) 9 9)) /\
  meshCfg plainViewer plainOptions twoEntities 0 0 !! "indices"
  = Some (VInts (mkTypedArray (ta_buffer twoTriangleIndices) 0 3)) /\
  meshCfg plainViewer plainOptions twoEntities 1 1 !! "indices"
  = Some (VInts (mkTypedArray (ta_buffer twoTriangleIndices) 3 3)) /\
  meshCfg plainViewer plainOptions twoEntities 1 1 !! "id"
  = Some (VStr "door-1.mesh.1").
Proof. repeat split; vm_compute; reflexivity. Qed.

Example twoEntities_calls :
  map isCreateMesh
    (emitted (load plainViewer plainOptions twoEntities) initialStore)
  = [true; false; true; false] /\
  visitedMeshes plainViewer plainOptions twoEntities = [0; 1] /\
  entityCfg plainViewer plainOptions twoEntities 1 !! "isObject"
  = Some (VBool false).
Proof. repeat split; vm_compute; reflexivity. Qed.

(** Excluding walls removes "wall-1" and its mesh from the calls. *)
Example twoEntities_without_walls :
  map isCreateMesh
    (emitted (load classifiedViewer excludeWalls twoEntities) initialStore)
  = [true; false] /\
  visitedMeshes classifiedViewer excludeWalls twoEntities = [1].
Proof. repeat split; vm_compute; reflexivity. Qed.

(** ** C1: the mesh range of the last entity *)

(** C1.  The mesh loop of the last entity stops at [entityMeshes.length],
    the number of entities, and not at the number of meshes: in a container
    with one entity and two meshes the range is [0, 1), mesh 1 is never
    emitted, and the entity is created with the single mesh identifier
    "wall-1.mesh.0". *)
Theorem C1_last_entity_range_ends_at_entity_count :
  numEntities oneEntityTwoMeshes = 1 /\
  numMeshes oneEntityTwoMeshes = 2 /\
  meshStart oneEntityTwoMeshes 0 = Some 0 /\
  meshEnd oneEntityTwoMeshes 0 = Some 1 /\
  visitedMeshes plainViewer plainOptions oneEntityTwoMeshes = [0] /\
  map isCreateMesh
    (emitted (load plainViewer plainOptions oneEntityTwoMeshes) initialStore)
  = [true; false] /\
  entityCfg plainViewer plainOptions oneEntityTwoMeshes 0 !! "meshIds"
  = Some (VStrs ["wall-1.mesh.0"]).
Proof.
  repeat split; vm_compute; reflexivity.
Qed.

(** The same end of range with more entities than meshes: the last entity
    should own nothing, and the loop visits a mesh index that does not
    exist; its record holds the whole [positions] array and an opacity that
    is not a number. *)
Example last_entity_visits_a_missing_mesh :
  numEntities twoEntitiesOneMesh = 2 /\
  numMeshes twoEntitiesOneMesh = 1 /\
  visitedMeshes plainViewer plainOptions twoEntitiesOneMesh = [0; 1] /\
  meshCfg plainViewer plainOptions twoEntitiesOneMesh 1 1 !! "positions"
  = Some (VInts (positions twoEntitiesOneMesh)) /\
  meshCfg plainViewer plainOptions twoEntitiesOneMesh 1 1 !! "opacity"
  = Some (VNum NaN).
Proof. repeat split; vm_compute; reflexivity. Qed.

(** ** C2: offset tables are not validated *)

(** C2 (as stated, refuted).  [meshPositions = [9, 0]] decreases, and the
    decode of that container still calls the builder four times. *)
Lemma C2_inconsistent_table_still_builds :
  inconsistentOffsetTable decreasingMeshPositions = true /\
  map isCreateMesh
    (emitted (load plainViewer plainOptions decreasingMeshPositions)
       initialStore)
  = [true; false; true; false].
Proof.
  split; [reflexivity|]. rewrite load_emitted. reflexivity.
Qed.

Lemma entityCalls_count_entities viewer options d i :
  length (List.filter isCreateEntity (entityCalls viewer options d i))
  = if skipped viewer options d i then 0 else 1.
Proof.
  unfold entityCalls. destruct (skipped viewer options d i); [done|].
  rewrite List.filter_app, length_app; simpl.
  assert (H : forall l : list nat,
             List.filter isCreateEntity
               (map (fun j => CreateMesh (meshCfg viewer options d i j)) l)
             = []).
  { induction l as [|x l IH]; simpl; done. }
  by rewrite H.
Qed.

Lemma entity_calls_counted viewer options d (l : list nat) :
  length (List.filter isCreateEntity
            (flat_map (entityCalls viewer options d) l))
  = length (List.filter (fun i => negb (skipped viewer options d i)) l).
Proof.
  induction l as [|i l IH]; simpl; [done|].
  rewrite List.filter_app, length_app, IH, entityCalls_count_entities.
  destruct (skipped viewer options d i); simpl; done.
Qed.

(** C2 (amended).  [load] checks no offset table.  For every container,
    consistent or not, the entity loop runs to its end and the calls the
    builder receives are, entity after entity in ascending index, nothing
    for an entity that is filtered out and, for an entity that passes the
    filter, the [createMesh] calls of its mesh range followed by one
    [createEntity] call that carries its identifier.  So the log has as
    many [createEntity] calls as entities pass the filter, and the block of
    a passing entity [i] comes after exactly the [createEntity] calls of the
    passing entities before [i]. *)
Theorem C2_no_offset_table_check viewer options d st :
  emitted (load viewer options d) st
  = flat_map
      (fun i =>
         if skipped viewer options d i then []
         else map (fun j => CreateMesh (meshCfg viewer options d i j))
                  (seq (fst (meshRange d i)) (snd (meshRange d i)))
              ++ [CreateEntity (entityCfg viewer options d i)])
      (seq 0 (numEntities d))
  /\ (forall i,
        entityCfg viewer options d i !! "id"
        = Some (value_of_id (entityId d i)) /\
        forall j,
          meshCfg viewer options d i j !! "id" = Some (VStr (meshId d i j)))
  /\ length (List.filter isCreateEntity (emitted (load viewer options d) st))
     = length (List.filter (fun i => negb (skipped viewer options d i))
                 (seq 0 (numEntities d)))
  /\ (forall i,
        i < numEntities d -> skipped viewer options d i = false ->
        exists before after,
          emitted (load viewer options d) st
          = before
            ++ map (fun j => CreateMesh (meshCfg viewer options d i j))
                   (seq (fst (meshRange d i)) (snd (meshRange d i)))
            ++ CreateEntity (entityCfg viewer options d i) :: after /\
          length (List.filter isCreateEntity before)
          = length (List.filter (fun k => negb (skipped viewer options d k))
                      (seq 0 i)) /\
          length (List.filter isCreateEntity after)
          = length (List.filter (fun k => negb (skipped viewer options d k))
                      (seq (S i) (numEntities d - S i)))).
Proof.
  split; [apply load_emitted|].
  split; [intros i; split; [apply entityCfg_id|intros j; apply meshCfg_id]|].
  split; [rewrite load_emitted; apply entity_calls_counted|].
  intros i Hi Hskip.
  exists (flat_map (entityCalls viewer options d) (seq 0 i)),
         (flat_map (entityCalls viewer options d)
            (seq (S i) (numEntities d - S i))).
  split; [|split; apply entity_calls_counted].
  rewrite load_emitted.
  replace (numEntities d) with (i + S (numEntities d - S i)) at 1 by lia.
  rewrite seq_app, flat_map_app; simpl. f_equal.
  unfold entityCalls at 1. rewrite Hskip.
  by rewrite <- app_assoc.
Qed.

(** The container whose [meshPositions] decrease: entity 1. *)
Lemma C2_no_offset_table_check_witness :
  inconsistentOffsetTable decreasingMeshPositions = true /\
  exists before after,
    emitted (load plainViewer plainOptions decreasingMeshPositions)
      initialStore
    = before
      ++ map (fun j => CreateMesh (meshCfg plainViewer plainOptions
                                     decreasingMeshPositions 1 j))
             (seq (fst (meshRange decreasingMeshPositions 1))
                  (snd (meshRange decreasingMeshPositions 1)))
      ++ CreateEntity (entityCfg plainViewer plainOptions
                         decreasingMeshPositions 1) :: after /\
    length (List.filter isCreateEntity before)
    = length (List.filter
                (fun k => negb (skipped plainViewer plainOptions
                                  decreasingMeshPositions k))
                (seq 0 1)) /\
    length (List.filter isCreateEntity after)
    = length (List.filter
                (fun k => negb (skipped plainViewer plainOptions
                                  decreasingMeshPositions k))
                (seq 2 (numEntities decreasingMeshPositions - 2))).
Proof.
  split; [reflexivity|].
  apply (proj2 (proj2 (proj2 (C2_no_offset_table_check
                                plainViewer plainOptions
                                decreasingMeshPositions initialStore))) 1).
  - vm_compute. lia.
  - reflexivity.
Defined.

(** ** C3: type defaults and the literal colour *)

(** C3.  When the type of entity [i] has a colorize or an opacity default,
    the loop body of [i] emits one [createMesh] record per mesh index of its
    range, and the [color] and [opacity] fields of each are the decoded ones:
    the colour buffer filled from [meshColors] and [meshColors[4j+3]/255],
    not the defaults. *)
Theorem C3_defaults_do_not_replace_literal_color
    viewer options d i mo p st :
  metaObject viewer d i = Some mo ->
  propsOf options mo = Some p ->
  is_Some (colorize p) \/ is_Some (opacity p) ->
  skipped viewer options d i = false ->
  exists cfgs ecfg,
    emitted (loadEntity viewer options d i tt) st
    = map CreateMesh cfgs ++ [CreateEntity ecfg] /\
    Forall2 (fun j cfg =>
               cfg !! "color" = Some (VFloat32Ref Color2) /\
               cfg !! "opacity"
               = Some (VNum (div255 (ta_get (meshColors d) (j * 4 + 3)))) /\
               (forall c, colorize p = Some c ->
                          cfg !! "color" <> Some (VNums c)))
            (meshIndicesOf d i) cfgs.
Proof.
  intros Hmo Hp _ Hskip.
  exists (map (meshCfg viewer options d i) (meshIndicesOf d i)),
         (entityCfg viewer options d i).
  split.
  - rewrite loadEntity_emitted. unfold entityCalls. rewrite Hskip.
    by rewrite map_map.
  - apply Forall2_fmap_r, Forall_Forall2_diag, Forall_forall.
    intros j _. unfold compose.
    rewrite meshCfg_color, meshCfg_opacity.
    repeat split. intros c _ [=].
Qed.

Lemma C3_defaults_do_not_replace_literal_color_witness :
  metaObject classifiedViewer twoEntities 0 = Some (mkMetaObject (Some "Wall"))
  /\ propsOf redWalls (mkMetaObject (Some "Wall")) = Some redWallProps
  /\ exists cfgs ecfg,
    emitted (loadEntity classifiedViewer redWalls twoEntities 0 tt)
      initialStore
    = map CreateMesh cfgs ++ [CreateEntity ecfg] /\
    Forall2 (fun j cfg =>
               cfg !! "color" = Some (VFloat32Ref Color2) /\
               cfg !! "opacity"
               = Some (VNum (div255
                               (ta_get (meshColors twoEntities) (j * 4 + 3))))
               /\
               (forall c, colorize redWallProps = Some c ->
                          cfg !! "color" <> Some (VNums c)))
            (meshIndicesOf twoEntities 0) cfgs.
Proof.
  split; [reflexivity|]. split; [reflexivity|].
  apply (C3_defaults_do_not_replace_literal_color
           classifiedViewer redWalls twoEntities 0
           (mkMetaObject (Some "Wall")) redWallProps initialStore).
  - reflexivity.
  - reflexivity.
  - left. eexists. reflexivity.
  - reflexivity.
Defined.

(** ** C4: where the slices of a mesh end *)

(** C4.  Every [createMesh] record of a decode, made for a mesh index [j],
    holds slices of [positions], [indices] and [edgeIndices] that start at
    [meshPositions[j]], [meshIndices[j]] and [meshEdgesIndices[j]].  When [j]
    is the last mesh index [M - 1] (so also when [M = 1] and [j = 0]) the
    end argument of each slice is the length of its array and the slice ends
    where the array ends; when [j + 1 < M] the end argument is the next entry
    of the offset table and the slice ends at that offset. *)
Theorem C4_last_mesh_slices_run_to_the_end viewer options d st cfg :
  CreateMesh cfg ∈ emitted (load viewer options d) st ->
  exists i j p ix ed,
    cfg !! "id" = Some (VStr (meshId d i j)) /\
    cfg !! "positions" = Some (VInts p) /\
    cfg !! "indices" = Some (VInts ix) /\
    cfg !! "edgeIndices" = Some (VInts ed) /\
    p = subarray (positions d) (ta_get (meshPositions d) j)
          (endOffset d j (ta_length (positions d)) (meshPositions d)) /\
    ix = subarray (indices d) (ta_get (meshIndices d) j)
           (endOffset d j (ta_length (indices d)) (meshIndices d)) /\
    ed = subarray (edgeIndices d) (ta_get (meshEdgesIndices d) j)
           (endOffset d j (ta_length (edgeIndices d)) (meshEdgesIndices d)) /\
    ((Z.of_nat j = Z.of_nat (numMeshes d) - 1)%Z ->
       (forall len table, endOffset d j len table = Some len) /\
       slicedToEnd (positions d) (meshPositions d) j p /\
       slicedToEnd (indices d) (meshIndices d) j ix /\
       slicedToEnd (edgeIndices d) (meshEdgesIndices d) j ed) /\
    (numMeshes d = 1 -> j = 0 ->
       ta_end p = ta_end (positions d) /\
       ta_end ix = ta_end (indices d) /\
       ta_end ed = ta_end (edgeIndices d)) /\
    (j + 1 < numMeshes d ->
       (forall len table, endOffset d j len table = ta_get table (j + 1)) /\
       slicedToNext (positions d) (meshPositions d) j p /\
       slicedToNext (indices d) (meshIndices d) j ix /\
       slicedToNext (edgeIndices d) (meshEdgesIndices d) j ed).
Proof.
  intros Hin.
  destruct (load_emitted_mesh viewer options d st cfg Hin)
    as (i & j & _ & _ & _ & ->).
  exists i, j. do 3 eexists.
  split; [apply meshCfg_id|].
  split; [by apply meshCfg_literal_field|].
  split; [by apply meshCfg_literal_field|].
  split; [by apply meshCfg_literal_field|].
  do 3 (split; [reflexivity|]).
  assert (Hend : lastMesh d j = true ->
                 (forall len table, endOffset d j len table = Some len) /\
                 slicedToEnd (positions d) (meshPositions d) j
                   (subarray (positions d) (ta_get (meshPositions d) j)
                      (endOffset d j (ta_length (positions d))
                         (meshPositions d))) /\
                 slicedToEnd (indices d) (meshIndices d) j
                   (subarray (indices d) (ta_get (meshIndices d) j)
                      (endOffset d j (ta_length (indices d))
                         (meshIndices d))) /\
                 slicedToEnd (edgeIndices d) (meshEdgesIndices d) j
                   (subarray (edgeIndices d) (ta_get (meshEdgesIndices d) j)
                      (endOffset d j (ta_length (edgeIndices d))
                         (meshEdgesIndices d)))).
  { intros Hlast. unfold endOffset. rewrite Hlast.
    split; [done|]. split; [|split]; apply slicedToEnd_subarray. }
  split; [|split].
  - intros Hlast. apply Hend. by apply lastMesh_true.
  - intros HM ->.
    destruct Hend as (_ & (_ & Hp & _) & (_ & Hi & _) & (_ & He & _)).
    { apply lastMesh_true. rewrite HM. reflexivity. }
    done.
  - intros Hnext. apply lastMesh_false in Hnext.
    unfold endOffset. rewrite Hnext.
    split; [done|]. split; [|split]; apply slicedToNext_subarray.
Qed.

(** Mesh 0 of the one-mesh container, and mesh 0 of a two-mesh one. *)
Lemma C4_last_mesh_slices_run_to_the_end_witness :
  (CreateMesh (meshCfg plainViewer plainOptions singleMesh 0 0)
     ∈ emitted (load plainViewer plainOptions singleMesh) initialStore
   /\ meshCfg plainViewer plainOptions singleMesh 0 0 !! "positions"
      = Some (VInts (mkTypedArray (ta_buffer (positions singleMesh)) 0 9))
   /\ ta_length (positions singleMesh) = 9)
  /\ (CreateMesh (meshCfg plainViewer plainOptions twoEntities 0 0)
        ∈ emitted (load plainViewer plainOptions twoEntities) initialStore
      /\ exists i j p ix ed,
        meshCfg plainViewer plainOptions twoEntities 0 0 !! "id"
        = Some (VStr (meshId twoEntities i j)) /\
        meshCfg plainViewer plainOptions twoEntities 0 0 !! "positions"
        = Some (VInts p) /\
        meshCfg plainViewer plainOptions twoEntities 0 0 !! "indices"
        = Some (VInts ix) /\
        meshCfg plainViewer plainOptions twoEntities 0 0 !! "edgeIndices"
        = Some (VInts ed) /\
        p = subarray (positions twoEntities)
              (ta_get (meshPositions twoEntities) j)
              (endOffset twoEntities j (ta_length (positions twoEntities))
                 (meshPositions twoEntities)) /\
        ix = subarray (indices twoEntities)
               (ta_get (meshIndices twoEntities) j)
               (endOffset twoEntities j (ta_length (indices twoEntities))
                  (meshIndices twoEntities)) /\
        ed = subarray (edgeIndices twoEntities)
               (ta_get (meshEdgesIndices twoEntities) j)
               (endOffset twoEntities j (ta_length (edgeIndices twoEntities))
                  (meshEdgesIndices twoEntities)) /\
        ((Z.of_nat j = Z.of_nat (numMeshes twoEntities) - 1)%Z ->
           (forall len table, endOffset twoEntities j len table = Some len) /\
           slicedToEnd (positions twoEntities) (meshPositions twoEntities) j p
           /\
           slicedToEnd (indices twoEntities) (meshIndices twoEntities) j ix /\
           slicedToEnd (edgeIndices twoEntities)
             (meshEdgesIndices twoEntities) j ed) /\
        (numMeshes twoEntities = 1 -> j = 0 ->
           ta_end p = ta_end (positions twoEntities) /\
           ta_end ix = ta_end (indices twoEntities) /\
           ta_end ed = ta_end (edgeIndices twoEntities)) /\
        (j + 1 < numMeshes twoEntities ->
           (forall len table,
              endOffset twoEntities j len table = ta_get table (j + 1)) /\
           slicedToNext (positions twoEntities) (meshPositions twoEntities) j p
           /\
           slicedToNext (indices twoEntities) (meshIndices twoEntities) j ix /\
           slicedToNext (edgeIndices twoEntities)
             (meshEdgesIndices twoEntities) j ed)).
Proof.
  assert (Hone : CreateMesh (meshCfg plainViewer plainOptions singleMesh 0 0)
                   ∈ emitted (load plainViewer plainOptions singleMesh)
                       initialStore).
  { vm_compute. left. }
  assert (Htwo : CreateMesh (meshCfg plainViewer plainOptions twoEntities 0 0)
                   ∈ emitted (load plainViewer plainOptions twoEntities)
                       initialStore).
  { vm_compute. left. }
  split.
  - split; [exact Hone|]. split; reflexivity.
  - split; [exact Htwo|].
    exact (C4_last_mesh_slices_run_to_the_end
             plainViewer plainOptions twoEntities initialStore _ Htwo).
Defined.

(** ** C5: normals are sliced like positions *)

(** C5.  When [positions] and [normals] have the same length, every
    [createMesh] record of a decode holds a slice of [positions] and a slice
    of [normals] taken with the same two arguments, both read from
    [meshPositions] (or, for the end of the last mesh, the length of
    [positions]); the two slices have the same length and start at the same
    distance from the start of their arrays. *)
Theorem C5_normals_share_the_position_offsets viewer options d st cfg :
  ta_length (positions d) = ta_length (normals d) ->
  CreateMesh cfg ∈ emitted (load viewer options d) st ->
  exists j b e,
    b = ta_get (meshPositions d) j /\
    e = (if lastMesh d j then Some (ta_length (positions d))
         else ta_get (meshPositions d) (j + 1)) /\
    cfg !! "positions" = Some (VInts (subarray (positions d) b e)) /\
    cfg !! "normals" = Some (VInts (subarray (normals d) b e)) /\
    ta_length (subarray (positions d) b e)
    = ta_length (subarray (normals d) b e) /\
    ta_offset (subarray (positions d) b e) - ta_offset (positions d)
    = ta_offset (subarray (normals d) b e) - ta_offset (normals d).
Proof.
  intros Hlen Hin.
  destruct (load_emitted_mesh viewer options d st cfg Hin)
    as (i & j & _ & _ & _ & ->).
  exists j. do 2 eexists.
  split; [reflexivity|]. split; [reflexivity|].
  split; [by apply meshCfg_literal_field|].
  split; [by apply meshCfg_literal_field|].
  unfold subarray; simpl. rewrite <- Hlen. split; [reflexivity|lia].
Qed.

Lemma C5_normals_share_the_position_offsets_witness :
  ta_length (positions twoEntities) = ta_length (normals twoEntities)
  /\ CreateMesh (meshCfg plainViewer plainOptions twoEntities 0 0)
       ∈ emitted (load plainViewer plainOptions twoEntities) initialStore
  /\ exists j b e,
    b = ta_get (meshPositions twoEntities) j /\
    e = (if lastMesh twoEntities j
         then Some (ta_length (positions twoEntities))
         else ta_get (meshPositions twoEntities) (j + 1)) /\
    meshCfg plainViewer plainOptions twoEntities 0 0 !! "positions"
    = Some (VInts (subarray (positions twoEntities) b e)) /\
    meshCfg plainViewer plainOptions twoEntities 0 0 !! "normals"
    = Some (VInts (subarray (normals twoEntities) b e)) /\
    ta_length (subarray (positions twoEntities) b e)
    = ta_length (subarray (normals twoEntities) b e) /\
    ta_offset (subarray (positions twoEntities) b e)
      - ta_offset (positions twoEntities)
    = ta_offset (subarray (normals twoEntities) b e)
      - ta_offset (normals twoEntities).
Proof.
  assert (Hin : CreateMesh (meshCfg plainViewer plainOptions twoEntities 0 0)
                  ∈ emitted (load plainViewer plainOptions twoEntities)
                      initialStore).
  { vm_compute. left. }
  split; [reflexivity|]. split; [exact Hin|].
  exact (C5_normals_share_the_position_offsets
           plainViewer plainOptions twoEntities initialStore _
           eq_refl Hin).
Defined.

(** ** C6: filtering by classification *)

Lemma loadEntity_skipped viewer options d i st :
  skipped viewer options d i = true ->
  exec (loadEntity viewer options d i tt) st = st.
Proof.
  intros H. unfold exec. rewrite loadEntity_run; simpl.
  unfold visitedBy, entityCalls. rewrite H. apply advance_nil.
Qed.

Lemma loadEntity_not_skipped viewer options d i st :
  skipped viewer options d i = false ->
  exec (loadEntity viewer options d i tt) st <> st.
Proof.
  intros H Heq. unfold exec in Heq. rewrite loadEntity_run in Heq.
  simpl in Heq.
  apply (f_equal (fun s => length (calls (performanceModel s)))) in Heq.
  rewrite advance_calls, length_app in Heq.
  unfold entityCalls in Heq. rewrite H, length_app in Heq. simpl in Heq. lia.
Qed.


(** C6 (as stated, refuted).  Metadata exists for "wall-1", its type is the
    empty string, an include set {"Door"} is configured and the type is not
    in it; the entity is processed all the same: one [createMesh] and one
    [createEntity] call. *)
Lemma C6_untyped_metadata_passes_include_set :
  metaObject untypedViewer singleMesh 0 = Some (mkMetaObject (Some "")) /\
  includeTypesMap onlyDoors = Some (<["Door" := true]> ∅) /\
  flag (<["Door" := true]> ∅) "" = false /\
  skipped untypedViewer onlyDoors singleMesh 0 = false /\
  map isCreateMesh
    (emitted (loadEntity untypedViewer onlyDoors singleMesh 0 tt) initialStore)
  = [true; false].
Proof.
  repeat split; vm_compute; reflexivity.
Qed.

(** C6 (amended).  If metadata exists for entity [i] with a non-empty type
    that is in the exclude set, or that is not in a configured include set,
    the loop body of [i] leaves the store as it was: no builder call and no
    colour decoded.  Without metadata the loop body leaves the store as it
    was exactly when [excludeUnclassifiedObjects] is set. *)
Theorem C6_filter_by_known_type viewer options d i st :
  (forall mo t,
     metaObject viewer d i = Some mo -> type mo = Some t -> t <> "" ->
     (exists m, excludeTypesMap options = Some m /\ flag m t = true) \/
     (exists m, includeTypesMap options = Some m /\ flag m t = false) ->
     exec (loadEntity viewer options d i tt) st = st /\
     emitted (loadEntity viewer options d i tt) st = []) /\
  (metaObject viewer d i = None ->
     (exec (loadEntity viewer options d i tt) st = st
      <-> excludeUnclassifiedObjects options = true)).
Proof.
  split.
  - intros mo t Hmo Ht Hne Hset.
    assert (Hskip : skipped viewer options d i = true).
    { unfold skipped, excludedType, notIncludedType. rewrite Hmo, Ht; simpl.
      assert (Htruthy : negb (String.eqb t "") = true).
      { apply negb_true_iff, String.eqb_neq, Hne. }
      rewrite Htruthy; simpl.
      destruct Hset as [(m & -> & Hf)|(m & -> & Hf)]; rewrite Hf; simpl.
      - reflexivity.
      - apply orb_true_r. }
    split; [by apply loadEntity_skipped|].
    rewrite loadEntity_emitted. unfold entityCalls. by rewrite Hskip.
  - intros Hmo.
    assert (Hskip : skipped viewer options d i
                    = excludeUnclassifiedObjects options).
    { unfold skipped. by rewrite Hmo. }
    split.
    + intros Heq. destruct (excludeUnclassifiedObjects options); [done|].
      by apply loadEntity_not_skipped in Heq.
    + intros Hex. apply loadEntity_skipped. by rewrite Hskip.
Qed.

Lemma C6_filter_by_known_type_witness :
  (metaObject classifiedViewer twoEntities 0 = Some (mkMetaObject (Some "Wall"))
   /\ exec (loadEntity classifiedViewer excludeWalls twoEntities 0 tt)
        initialStore = initialStore
   /\ emitted (loadEntity classifiedViewer excludeWalls twoEntities 0 tt)
        initialStore = [])
  /\ (metaObject plainViewer twoEntities 0 = None
      /\ excludeUnclassifiedObjects onlyDoorsClassified = true
      /\ exec (loadEntity plainViewer onlyDoorsClassified twoEntities 0 tt)
           initialStore = initialStore).
Proof.
  split.
  - split; [reflexivity|].
    apply (proj1 (C6_filter_by_known_type
                    classifiedViewer excludeWalls twoEntities 0 initialStore)
             (mkMetaObject (Some "Wall")) "Wall").
    + reflexivity.
    + reflexivity.
    + discriminate.
    + left. eexists. split; reflexivity.
  - split; [reflexivity|]. split; [reflexivity|].
    apply (proj2 (C6_filter_by_known_type
                    plainViewer onlyDoorsClassified twoEntities 0
                    initialStore)).
    + reflexivity.
    + reflexivity.
Defined.

(** ** C7: an entity without meshes *)

(** C7 (the example as stated, refuted).  With [entityMeshes = [0, 0, 2]]
    the entity at index 1 owns the mesh indices 0 and 1: its loop body makes
    two [createMesh] calls and its record lists two mesh identifiers. *)
Lemma C7_entity_at_index_one_has_two_meshes :
  ta_elements (entityMeshes threeEntities) = [0; 0; 2] /\
  skipped plainViewer plainOptions threeEntities 1 = false /\
  meshStart threeEntities 1 = Some 0 /\
  meshEnd threeEntities 1 = Some 2 /\
  map isCreateMesh
    (emitted (loadEntity plainViewer plainOptions threeEntities 1 tt)
       initialStore)
  = [true; true; false] /\
  entityCfg plainViewer plainOptions threeEntities 1 !! "meshIds"
  = Some (VStrs ["wall-1.mesh.0"; "wall-1.mesh.1"]).
Proof.
  repeat split; vm_compute; reflexivity.
Qed.

(** C7 (amended).  An entity [i] that passes the filter and whose mesh range
    is empty ([entityMeshes[i] = entityMeshes[i + 1]]) gets no [createMesh]
    call and exactly one [createEntity] call, with an empty list of mesh
    identifiers; with [entityMeshes = [0, 0, 2]] that is the entity at
    index 0. *)
Theorem C7_entity_without_meshes viewer options d i st :
  skipped viewer options d i = false ->
  i + 1 < numEntities d ->
  ta_get (entityMeshes d) i = ta_get (entityMeshes d) (i + 1) ->
  exists cfg,
    emitted (loadEntity viewer options d i tt) st = [CreateEntity cfg] /\
    cfg !! "id" = Some (value_of_id (entityId d i)) /\
    cfg !! "meshIds" = Some (VStrs []).
Proof.
  intros Hskip Hlt Heq.
  assert (Hnone : meshIndicesOf d i = []).
  { unfold meshIndicesOf, meshRange, meshStart, meshEnd.
    rewrite (lastEntity_false d i Hlt), <- Heq.
    destruct (ta_get (entityMeshes d) i) as [j|]; simpl; [|done].
    by rewrite Nat.sub_diag. }
  exists (entityCfg viewer options d i).
  rewrite loadEntity_emitted. unfold entityCalls. rewrite Hskip, Hnone; simpl.
  split; [done|]. split; [apply entityCfg_id|].
  rewrite entityCfg_meshIds. by rewrite Hnone.
Qed.

(** The container with [entityMeshes = [0, 0, 2]]: the entity at index 0. *)
Lemma C7_entity_without_meshes_witness :
  ta_elements (entityMeshes threeEntities) = [0; 0; 2] /\
  exists cfg,
    emitted (loadEntity plainViewer plainOptions threeEntities 0 tt)
      initialStore = [CreateEntity cfg] /\
    cfg !! "id" = Some (value_of_id (entityId threeEntities 0)) /\
    cfg !! "meshIds" = Some (VStrs []).
Proof.
  split; [reflexivity|].
  apply (C7_entity_without_meshes
           plainViewer plainOptions threeEntities 0 initialStore).
  - reflexivity.
  - vm_compute. lia.
  - reflexivity.
Defined.

(** ** C8: the order of the builder calls *)

(** C8.  The calls of a decode are those of entity 0, then those of entity
    1, and so on to the last entity; an entity that passes the filter
    contributes its [createMesh] calls in ascending mesh index (each record
    carrying the identifier made from the entity and that index) followed by
    its [createEntity] call, a filtered one contributes nothing.  With one
    unfiltered entity, one mesh and [entityMeshes = [0]],
    [meshPositions = [0]] the calls are one [createMesh] and then one
    [createEntity]. *)
Theorem C8_calls_in_ascending_index_order viewer options d st :
  emitted (load viewer options d) st
  = flat_map
      (fun i =>
         if skipped viewer options d i then []
         else map (fun j => CreateMesh (meshCfg viewer options d i j))
                  (seq (fst (meshRange d i)) (snd (meshRange d i)))
              ++ [CreateEntity (entityCfg viewer options d i)])
      (seq 0 (numEntities d))
  /\ (forall i j,
        meshCfg viewer options d i j !! "id" = Some (VStr (meshId d i j)))
  /\ (forall i,
        entityCfg viewer options d i !! "id"
        = Some (value_of_id (entityId d i)) /\
        entityCfg viewer options d i !! "meshIds"
        = Some (VStrs (map (meshId d i)
                         (seq (fst (meshRange d i)) (snd (meshRange d i))))))
  /\ (numEntities d = 1 -> numMeshes d = 1 ->
      ta_get (entityMeshes d) 0 = Some 0 ->
      ta_get (meshPositions d) 0 = Some 0 ->
      skipped viewer options d 0 = false ->
      emitted (load viewer options d) st
      = [ CreateMesh (meshCfg viewer options d 0 0);
          CreateEntity (entityCfg viewer options d 0) ]).
Proof.
  split; [apply load_emitted|].
  split; [apply meshCfg_id|].
  split; [intros i; split; [apply entityCfg_id|apply entityCfg_meshIds]|].
  intros HN _ Hstart _ Hskip.
  rewrite load_emitted, HN; simpl. rewrite app_nil_r.
  unfold entityCalls, meshIndicesOf, meshRange, meshStart, meshEnd, lastEntity.
  rewrite Hskip, Hstart. unfold numEntities in *. rewrite HN. reflexivity.
Qed.

Lemma C8_calls_in_ascending_index_order_witness :
  ta_elements (entityMeshes singleMesh) = [0] /\
  ta_elements (meshPositions singleMesh) = [0] /\
  emitted (load plainViewer plainOptions singleMesh) initialStore
  = [ CreateMesh (meshCfg plainViewer plainOptions singleMesh 0 0);
      CreateEntity (entityCfg plainViewer plainOptions singleMesh 0) ].
Proof.
  split; [reflexivity|]. split; [reflexivity|].
  apply (proj2 (proj2 (proj2 (C8_calls_in_ascending_index_order
                                plainViewer plainOptions singleMesh
                                initialStore))));
    reflexivity.
Defined.

(** ** C9: decoding a colour *)

(** C9.  Let [r, g, b, a] be the four bytes of mesh [j] in [meshColors].
    After the loop body of mesh [j] the colour buffer holds [r/255], [g/255]
    and [b/255] (as stored in a [Float32Array]) and the literal of the
    [createMesh] call has that buffer as [color] and [a/255] as [opacity];
    all four numbers lie between 0 and 1.  For the bytes 255, 0, 128, 64 the
    colour is 1, 0 and 8421505/2^24 = 0.50196..., within 10^-5 of 0.50196,
    and the opacity is 64/255 rounded, within 10^-3 of 0.251. *)
Theorem C9_color_channels_over_255 d i md j ids st r g b a :
  length (color2 st) = 3 ->
  ta_get (meshColors d) (j * 4) = Some r ->
  ta_get (meshColors d) (j * 4 + 1) = Some g ->
  ta_get (meshColors d) (j * 4 + 2) = Some b ->
  ta_get (meshColors d) (j * 4 + 3) = Some a ->
  let st' := exec (loadMesh d i md j ids) st in
  deref st' Color2
  = [ fround (div (of_byte r) (of_Z 255));
      fround (div (of_byte g) (of_Z 255));
      fround (div (of_byte b) (of_Z 255)) ] /\
  (exists literal,
     emitted (loadMesh d i md j ids) st
     = [CreateMesh (utils.apply md literal)] /\
     literal !! "color" = Some (VFloat32Ref Color2) /\
     literal !! "opacity" = Some (VNum (div (of_byte a) (of_Z 255)))) /\
  Forall (fun x => in_unit_interval x = true) (deref st' Color2) /\
  in_unit_interval (div (of_byte a) (of_Z 255)) = true /\
  (r = xff -> g = x00 -> b = x80 -> a = x40 ->
   deref st' Color2
   = [ of_Z 1; of_Z 0; S754_finite false (8421505 * 2 ^ 29) (-53) ] /\
   close_to (S754_finite false (8421505 * 2 ^ 29) (-53)) 50196 100000 = true /\
   div (of_byte a) (of_Z 255) = S754_finite false 4521260802379792 (-54) /\
   close_to (div (of_byte a) (of_Z 255)) 251 1000 = true).
Proof.
  intros Hlen Hr Hg Hb Ha st'.
  assert (Hst : deref st' Color2
                = [ fround (div (of_byte r) (of_Z 255));
                    fround (div (of_byte g) (of_Z 255));
                    fround (div (of_byte b) (of_Z 255)) ]).
  { unfold st', exec. rewrite loadMesh_run; simpl.
    rewrite paint_colorBytes by done. unfold decodedColor.
    by rewrite Hr, Hg, Hb. }
  split; [exact Hst|]. split.
  { eexists. split.
    - apply emitted_advance with (js := [colorBytes d j]).
      unfold exec. by rewrite loadMesh_run.
    - split; [reflexivity|]. unfold decodedOpacity. by rewrite Ha. }
  split.
  { rewrite Hst. repeat constructor; apply fround_div255_unit. }
  split; [apply div255_unit|].
  intros -> -> -> ->. rewrite Hst. repeat split; vm_compute; reflexivity.
Qed.

Lemma C9_color_channels_over_255_witness :
  ta_elements (meshColors singleMesh) = [xff; x00; x80; x40] /\
  let st' := exec (loadMesh singleMesh 0 ∅ 0 []) initialStore in
  deref st' Color2
  = [ fround (div (of_byte xff) (of_Z 255));
      fround (div (of_byte x00) (of_Z 255));
      fround (div (of_byte x80) (of_Z 255)) ] /\
  (exists literal,
     emitted (loadMesh singleMesh 0 ∅ 0 []) initialStore
     = [CreateMesh (utils.apply ∅ literal)] /\
     literal !! "color" = Some (VFloat32Ref Color2) /\
     literal !! "opacity" = Some (VNum (div (of_byte x40) (of_Z 255)))) /\
  Forall (fun x => in_unit_interval x = true) (deref st' Color2) /\
  in_unit_interval (div (of_byte x40) (of_Z 255)) = true /\
  (xff = xff -> x00 = x00 -> x80 = x80 -> x40 = x40 ->
   deref st' Color2
   = [ of_Z 1; of_Z 0; S754_finite false (8421505 * 2 ^ 29) (-53) ] /\
   close_to (S754_finite false (8421505 * 2 ^ 29) (-53)) 50196 100000 = true /\
   div (of_byte x40) (of_Z 255) = S754_finite false 4521260802379792 (-54) /\
   close_to (div (of_byte x40) (of_Z 255)) 251 1000 = true).
Proof.
  split; [reflexivity|].
  apply (C9_color_channels_over_255 singleMesh 0 ∅ 0 [] initialStore
           xff x00 x80 x40); reflexivity.
Defined.

(** ** C10: one colour buffer for every call *)

(** C10.  [decompressColor] returns the same array on every call and
    overwrites it: after a call with [c1] and a call with [c2] both results
    are the one buffer, which held the colour of [c1] in between and holds
    the colour of [c2] at the end.  So every [createMesh] record of a decode
    has that one buffer as its [color], and when the decode is over the
    buffer holds the colour of the last mesh that was visited. *)
Theorem C10_one_color_buffer :
  (forall c1 c2 st,
     length (color2 st) = 3 ->
     let r1 := fst (decompressColor c1 st) in
     let st1 := snd (decompressColor c1 st) in
     let r2 := fst (decompressColor c2 st1) in
     let st2 := snd (decompressColor c2 st1) in
     r1 = VFloat32Ref Color2 /\ r2 = r1 /\
     deref st1 Color2
     = [ fround (div255 (ta_get c1 0)); fround (div255 (ta_get c1 1));
         fround (div255 (ta_get c1 2)) ] /\
     deref st2 Color2
     = [ fround (div255 (ta_get c2 0)); fround (div255 (ta_get c2 1));
         fround (div255 (ta_get c2 2)) ]) /\
  (forall viewer options d st,
     length (color2 st) = 3 ->
     (forall cfg,
        CreateMesh cfg ∈ emitted (load viewer options d) st ->
        cfg !! "color" = Some (VFloat32Ref Color2)) /\
     (forall j,
        last (visitedMeshes viewer options d) = Some j ->
        deref (exec (load viewer options d) st) Color2 = decodedColor d j)).
Proof.
  split.
  - intros c1 c2 st Hlen r1 st1 r2 st2.
    unfold r1, r2, st2, st1. rewrite !decompressColor_run; simpl.
    repeat split.
    + by apply paint_three.
    + apply paint_three. by rewrite paint_length.
  - intros viewer options d st Hlen. split.
    + intros cfg Hin.
      destruct (load_emitted_mesh viewer options d st cfg Hin)
        as (i & j & _ & _ & _ & ->).
      apply meshCfg_color.
    + intros j Hlast. simpl. rewrite load_color2.
      apply last_Some in Hlast as [js ->].
      rewrite map_app; simpl. rewrite foldl_paint_last by done.
      by apply paint_colorBytes.
Qed.

Lemma C10_one_color_buffer_witness :
  (fst (decompressColor (ta_of_list [xff; x00; x80]) initialStore)
   = VFloat32Ref Color2 /\
   fst (decompressColor (ta_of_list [x0a; x14; x1e])
          (snd (decompressColor (ta_of_list [xff; x00; x80]) initialStore)))
   = fst (decompressColor (ta_of_list [xff; x00; x80]) initialStore) /\
   deref (snd (decompressColor (ta_of_list [x0a; x14; x1e])
                 (snd (decompressColor (ta_of_list [xff; x00; x80])
                         initialStore)))) Color2
   = [ fround (div255 (Some x0a)); fround (div255 (Some x14));
       fround (div255 (Some x1e)) ]) /\
  (last (visitedMeshes plainViewer plainOptions twoEntities) = Some 1 /\
   deref (exec (load plainViewer plainOptions twoEntities) initialStore) Color2
   = decodedColor twoEntities 1).
Proof.
  split.
  - destruct (proj1 C10_one_color_buffer
                (ta_of_list [xff; x00; x80]) (ta_of_list [x0a; x14; x1e])
                initialStore eq_refl) as (H1 & H2 & _ & H4).
    split; [exact H1|]. split; [exact H2|exact H4].
  - split; [reflexivity|].
    apply (proj2 (proj2 C10_one_color_buffer
                    plainViewer plainOptions twoEntities initialStore
                    eq_refl)).
    reflexivity.
Defined.

(** * Further properties of the parser *)

(** ** Entities and their meshes *)

Section EntityFacts.

Variable viewer : Viewer.
Variable options : Options.
Variable d : InflatedData.

Lemma createdMeshIds_app cs cs' :
  createdMeshIds (cs ++ cs') = createdMeshIds cs ++ createdMeshIds cs'.
Proof. unfold createdMeshIds. apply omap_app. Qed.

Lemma createdMeshIds_meshes i js :
  createdMeshIds (map (fun j => CreateMesh (meshCfg viewer options d i j)) js)
  = map (fun j => VStr (meshId d i j)) js.
Proof.
  induction js as [|j js IH]; [done|].
  change (createdMeshIds
            (CreateMesh (meshCfg viewer options d i j)
             :: map (fun j => CreateMesh (meshCfg viewer options d i j)) js)
          = VStr (meshId d i j) :: map (fun j => VStr (meshId d i j)) js).
  rewrite <- IH. unfold createdMeshIds. cbn [omap list_omap].
  by rewrite meshCfg_id.
Qed.

(** Every [createEntity] call comes right after the [createMesh] calls of
    the meshes it lists: its ["meshIds"] are the ["id"] fields of those
    calls, in the same order, one per mesh index of the entity's range. *)
Theorem entity_lists_the_meshes_created_for_it st e :
  CreateEntity e ∈ emitted (load viewer options d) st ->
  exists i before cfgs ids after,
    emitted (load viewer options d) st
    = before ++ map CreateMesh cfgs ++ CreateEntity e :: after /\
    e !! "id" = Some (value_of_id (entityId d i)) /\
    e !! "meshIds" = Some (VStrs ids) /\
    map (fun cfg => cfg !! "id") cfgs = map (fun s => Some (VStr s)) ids /\
    length ids = snd (meshRange d i).
Proof.
  rewrite load_emitted, list_elem_of_In, in_flat_map.
  intros (i & Hi & Hin).
  apply in_split in Hi as (l1 & l2 & Hseq). rewrite Hseq.
  unfold entityCalls in Hin.
  destruct (skipped viewer options d i) eqn:Hskip; [destruct Hin|].
  apply in_app_or in Hin as [Hin|[Hin|[]]].
  { apply in_map_iff in Hin as (j & Hj & _). discriminate. }
  inversion Hin; subst e.
  exists i, (flat_map (entityCalls viewer options d) l1),
    (map (meshCfg viewer options d i) (meshIndicesOf d i)),
    (map (meshId d i) (meshIndicesOf d i)),
    (flat_map (entityCalls viewer options d) l2).
  split.
  { rewrite flat_map_app; simpl. f_equal.
    unfold entityCalls at 1. rewrite Hskip, map_map.
    by rewrite <- app_assoc. }
  split; [apply entityCfg_id|]. split; [apply entityCfg_meshIds|].
  split.
  - rewrite !map_map. apply map_ext. intros j. apply meshCfg_id.
  - unfold meshIndicesOf. by rewrite length_map, length_seq.
Qed.

Lemma entityCalls_count_meshes i :
  length (List.filter isCreateMesh (entityCalls viewer options d i))
  = length (visitedBy viewer options d i).
Proof.
  unfold entityCalls, visitedBy.
  destruct (skipped viewer options d i); [done|].
  rewrite List.filter_app; simpl. rewrite app_nil_r.
  induction (meshIndicesOf d i) as [|j js IH]; simpl; [done|]. by rewrite IH.
Qed.

(** The builder receives one [createMesh] call per visited mesh index and
    one record in all per entity that passes the filter and mesh index it
    owns: the log has as many calls as there are such entities and
    indices. *)
Theorem one_call_per_entity_and_mesh st :
  length (List.filter isCreateMesh (emitted (load viewer options d) st))
  = length (visitedMeshes viewer options d) /\
  length (emitted (load viewer options d) st)
  = length (visitedMeshes viewer options d)
    + length (List.filter (fun i => negb (skipped viewer options d i))
                (seq 0 (numEntities d))).
Proof.
  rewrite load_emitted. unfold visitedMeshes.
  induction (seq 0 (numEntities d)) as [|i l [IH1 IH2]]; simpl; [done|].
  rewrite List.filter_app, !length_app, IH1, IH2, entityCalls_count_meshes.
  split; [done|].
  unfold entityCalls, visitedBy.
  destruct (skipped viewer options d i); simpl; [done|].
  rewrite length_app, length_map; simpl. lia.
Qed.

(** [load] marks the builder as holding precompressed positions and normals
    whatever the container holds, keeps the calls the builder had already
    received, and keeps [color2] an array of as many numbers. *)
Theorem load_marks_builder_and_keeps_its_log st :
  let st' := exec (load viewer options d) st in
  positionsCompression (performanceModel st') = Some "precompressed" /\
  normalsCompression (performanceModel st') = Some "precompressed" /\
  calls (performanceModel st')
  = calls (performanceModel st) ++ emitted (load viewer options d) st /\
  length (color2 st') = length (color2 st).
Proof.
  simpl. rewrite load_emitted, load_color2_length.
  unfold exec, load, bind; simpl. rewrite entityLoop_run; simpl. done.
Qed.


(** An entity without classification metadata never receives type
    defaults, also when a "DEFAULT" entry is configured: its records are the
    literals. *)
Theorem unclassified_entity_gets_no_defaults i st :
  metaObject viewer d i = None ->
  excludeUnclassifiedObjects options = false ->
  emitted (loadEntity viewer options d i tt) st
  = map (fun j => CreateMesh (meshLiteral d i j (VFloat32Ref Color2)
                                (decodedOpacity d j)))
        (meshIndicesOf d i)
    ++ [CreateEntity (entityLiteral d i
                        (map (meshId d i) (meshIndicesOf d i)))].
Proof.
  intros Hmo Hex. rewrite loadEntity_emitted.
  unfold entityCalls, skipped, meshCfg, entityCfg, defaultsOf.
  rewrite Hmo, Hex; simpl. unfold utils.apply.
  reflexivity.
Qed.


(** Type defaults can only switch an entity off: its record gets
    ["visible"] (["pickable"]) exactly when the default is [false], and then
    with the value [false]; the fields of the literal are untouched. *)
Theorem entity_defaults_only_switch_off i mo p st :
  metaObject viewer d i = Some mo ->
  propsOf options mo = Some p ->
  skipped viewer options d i = false ->
  exists cfgs e,
    emitted (loadEntity viewer options d i tt) st
    = map CreateMesh cfgs ++ [CreateEntity e] /\
    e !! "visible"
    = (match visible p with Some false => Some (VBool false) | _ => None end)
    /\
    e !! "pickable"
    = (match pickable p with Some false => Some (VBool false) | _ => None end)
    /\
    e !! "id" = Some (value_of_id (entityId d i)) /\
    e !! "isObject"
    = Some (VBool (strictly_one (ta_get (entityIsObjects d) i))).
Proof.
  intros Hmo Hp Hskip.
  exists (map (meshCfg viewer options d i) (meshIndicesOf d i)),
         (entityCfg viewer options d i).
  split.
  { rewrite loadEntity_emitted. unfold entityCalls.
    by rewrite Hskip, map_map. }
  assert (Hdefaults : defaultsOf viewer options d i = Some p).
  { unfold defaultsOf. by rewrite Hmo. }
  unfold entityCfg, utils.apply. rewrite Hdefaults.
  destruct p as [[[|]|] [[|]|] c o]; repeat split; reflexivity.
Qed.

End EntityFacts.

(** ** Filters *)

Section FilterFacts.

Variable viewer : Viewer.
Variable options : Options.
Variable d : InflatedData.

Lemma withoutFilters_not_skipped i :
  skipped viewer (withoutFilters options) d i = false.
Proof.
  unfold skipped, excludedType, notIncludedType; simpl.
  by destruct (metaObject viewer d i).
Qed.

Lemma withoutFilters_entityCalls i :
  entityCalls viewer options d i
  = if skipped viewer options d i then []
    else entityCalls viewer (withoutFilters options) d i.
Proof.
  unfold entityCalls at 2. rewrite withoutFilters_not_skipped.
  unfold entityCalls. by destruct (skipped viewer options d i).
Qed.

(** The filters only drop entities: the calls of a decode are those of the
    decode without filters, in the same order and with the same records,
    less the calls of the entities that are filtered out. *)
Theorem filters_only_drop_calls st :
  emitted (load viewer options d) st
  = flat_map (fun i => if skipped viewer options d i then []
                       else entityCalls viewer (withoutFilters options) d i)
      (seq 0 (numEntities d)) /\
  emitted (load viewer (withoutFilters options) d) st
  = flat_map (entityCalls viewer (withoutFilters options) d)
      (seq 0 (numEntities d)) /\
  emitted (load viewer options d) st
    `sublist_of` emitted (load viewer (withoutFilters options) d) st.
Proof.
  rewrite !load_emitted.
  split; [|split; [done|]].
  - apply flat_map_ext. intros i. apply withoutFilters_entityCalls.
  - induction (seq 0 (numEntities d)) as [|i l IH]; simpl; [done|].
    apply sublist_app; [|exact IH].
    rewrite withoutFilters_entityCalls.
    destruct (skipped viewer options d i); [apply sublist_nil_l|done].
Qed.

End FilterFacts.

(** ** The colour codec *)

Lemma all_bytes_complete (b : byte) : In b all_bytes.
Proof.
  apply list_elem_of_In. unfold all_bytes. apply list_elem_of_omap.
  exists (Byte.to_nat b). split.
  - apply list_elem_of_In, in_seq. pose proof (Byte.to_nat_bounded b). lia.
  - apply Byte.of_to_nat.
Qed.

Lemma decoding_table_complete (b : byte) : In (decoded b) decoding_table.
Proof. unfold decoding_table. apply in_map, all_bytes_complete. Qed.

Lemma decoding_is_increasing_true : increasing_on decoding_table = true.
Proof. vm_compute. reflexivity. Qed.

Lemma increasing_on_spec table x y :
  increasing_on table = true -> In x table -> In y table ->
  (fst x < fst y)%Z ->
  ltb (fst (snd x)) (fst (snd y)) = true /\
  ltb (snd (snd x)) (snd (snd y)) = true.
Proof.
  unfold increasing_on. intros H Hx Hy Hlt.
  rewrite forallb_forall in H. specialize (H x Hx).
  rewrite forallb_forall in H. specialize (H y Hy).
  apply Z.ltb_lt in Hlt. rewrite Hlt in H. simpl in H.
  by apply andb_true_iff in H.
Qed.

(** A larger byte decodes to a strictly larger channel and a strictly
    larger opacity: the decoding loses no colour, two bytes that differ give
    numbers that differ. *)
Theorem color_decoding_is_increasing (b1 b2 : byte) :
  (byte_value b1 < byte_value b2)%Z ->
  ltb (channel b1) (channel b2) = true /\
  ltb (alpha b1) (alpha b2) = true.
Proof.
  intros Hlt.
  exact (increasing_on_spec decoding_table (decoded b1) (decoded b2)
           decoding_is_increasing_true
           (decoding_table_complete b1) (decoding_table_complete b2) Hlt).
Qed.

Lemma color_decoding_is_increasing_witness :
  (byte_value x7f < byte_value x80)%Z /\
  ltb (channel x7f) (channel x80) = true /\
  ltb (alpha x7f) (alpha x80) = true.
Proof.
  split; [reflexivity|].
  apply (color_decoding_is_increasing x7f x80). reflexivity.
Defined.

Lemma channel_not_nan (b : byte) : is_nan (channel b) = false.
Proof. destruct b; vm_compute; reflexivity. Qed.

Lemma alpha_not_nan (b : byte) : is_nan (alpha b) = false.
Proof. destruct b; vm_compute; reflexivity. Qed.

Lemma div255_nan (x : option byte) :
  is_nan (div255 x) = true <-> x = None.
Proof.
  destruct x as [b|].
  - change (div255 (Some b)) with (alpha b). rewrite alpha_not_nan.
    split; discriminate.
  - split; reflexivity.
Qed.

Lemma fround_div255_nan (x : option byte) :
  is_nan (fround (div255 x)) = true <-> x = None.
Proof.
  destruct x as [b|].
  - change (fround (div255 (Some b))) with (channel b).
    rewrite channel_not_nan. split; discriminate.
  - split; reflexivity.
Qed.

(** A colour byte that is missing decodes to NaN and a byte that is there
    never does: after [decompressColor] element [k] of the buffer is NaN
    exactly when the argument has no element [k], and the opacity of mesh
    [j] is NaN exactly when [meshColors] has no element [4j + 3].
    [decompressColor] touches nothing but the buffer. *)
Theorem missing_color_bytes_decode_to_NaN d color j st :
  length (color2 st) = 3 ->
  (forall k, k < 3 ->
     exists x,
       color2 (snd (decompressColor color st)) !! k = Some x /\
       (is_nan x = true <-> ta_get color k = None)) /\
  (is_nan (decodedOpacity d j) = true
   <-> ta_get (meshColors d) (j * 4 + 3) = None) /\
  performanceModel (snd (decompressColor color st)) = performanceModel st.
Proof.
  intros Hlen. rewrite decompressColor_run; simpl.
  rewrite paint_three by done. split; [|split].
  - intros k Hk. destruct k as [|[|[|k]]]; [..|lia];
      eexists; (split; [reflexivity|apply fround_div255_nan]).
  - apply div255_nan.
  - by destruct st as [c [p n l]]; simpl; rewrite app_nil_r.
Qed.

Lemma missing_color_bytes_decode_to_NaN_witness :
  (exists x,
     color2 (snd (decompressColor (ta_of_list [xff; x00]) initialStore)) !! 2
     = Some x /\
     (is_nan x = true <-> ta_get (ta_of_list [xff; x00]) 2 = None)) /\
  color2 (snd (decompressColor (ta_of_list [xff; x00]) initialStore))
  = [of_Z 1; of_Z 0; NaN].
Proof.
  split.
  - apply (proj1 (missing_color_bytes_decode_to_NaN
                    Samples.singleMesh (ta_of_list [xff; x00]) 0
                    initialStore eq_refl) 2).
    lia.
  - reflexivity.
Defined.

(** ** Slices *)

Section SliceFacts.

Context {A : Type}.
Implicit Types src : TypedArray A.

(** [subarray] never reaches outside the array it is taken from, whatever
    its arguments. *)
Lemma subarray_stays_within src b e : ta_within (subarray src b e) src.
Proof.
  unfold ta_within, ta_end, subarray; simpl. split; [reflexivity|].
  destruct b as [b|], e as [e|]; simpl; lia.
Qed.

Lemma ta_within_valid (slice src : TypedArray A) :
  ta_within slice src -> ta_valid src -> ta_valid slice.
Proof.
  unfold ta_within, ta_valid. intros (Hb & _ & He) Hv. rewrite Hb. lia.
Qed.

Lemma ta_elements_length src :
  ta_valid src -> length (ta_elements src) = ta_length src.
Proof.
  unfold ta_valid, ta_end, ta_elements. intros H.
  rewrite length_take, length_drop. lia.
Qed.

(** The elements of a slice with ordered arguments inside the array. *)
Lemma ta_elements_subarray src b e :
  b <= e <= ta_length src ->
  ta_elements (subarray src (Some b) (Some e))
  = take (e - b) (drop b (ta_elements src)).
Proof.
  intros H. unfold ta_elements, subarray; simpl.
  rewrite (Nat.min_l b), (Nat.min_l e) by lia.
  assert (Hd : forall l : list A,
             drop b (take (ta_length src) l)
             = take (ta_length src - b) (drop b l)).
  { intros l. rewrite take_drop_commute. do 2 f_equal. lia. }
  rewrite Hd, take_take, drop_drop. f_equal. lia.
Qed.

End SliceFacts.

Section MeshSliceFacts.

Variable viewer : Viewer.
Variable options : Options.
Variable d : InflatedData.

(** Every slice handed to [createMesh] is a window of the array it was
    cut from, so it lies inside the buffer when that array does; this needs
    no assumption on the offset tables. *)
Theorem mesh_slices_stay_within_their_arrays st cfg :
  CreateMesh cfg ∈ emitted (load viewer options d) st ->
  exists p n ix ed,
    cfg !! "positions" = Some (VInts p) /\
    cfg !! "normals" = Some (VInts n) /\
    cfg !! "indices" = Some (VInts ix) /\
    cfg !! "edgeIndices" = Some (VInts ed) /\
    ta_within p (positions d) /\ ta_within n (normals d) /\
    ta_within ix (indices d) /\ ta_within ed (edgeIndices d) /\
    (ta_valid (positions d) -> ta_valid p) /\
    (ta_valid (normals d) -> ta_valid n) /\
    (ta_valid (indices d) -> ta_valid ix) /\
    (ta_valid (edgeIndices d) -> ta_valid ed).
Proof.
  intros Hin.
  destruct (load_emitted_mesh viewer options d st cfg Hin)
    as (i & j & _ & _ & _ & ->).
  do 4 eexists.
  do 4 (split; [by apply meshCfg_literal_field|]).
  repeat split;
    first [ apply subarray_stays_within
          | apply ta_within_valid, subarray_stays_within ].
Qed.

End MeshSliceFacts.

Lemma mesh_slices_stay_within_their_arrays_witness :
  CreateMesh (meshCfg Samples.plainViewer Samples.plainOptions
                Samples.decreasingMeshPositions 0 0)
    ∈ emitted (load Samples.plainViewer Samples.plainOptions
                 Samples.decreasingMeshPositions) initialStore
  /\ exists p n ix ed,
    meshCfg Samples.plainViewer Samples.plainOptions
      Samples.decreasingMeshPositions 0 0 !! "positions" = Some (VInts p) /\
    meshCfg Samples.plainViewer Samples.plainOptions
      Samples.decreasingMeshPositions 0 0 !! "normals" = Some (VInts n) /\
    meshCfg Samples.plainViewer Samples.plainOptions
      Samples.decreasingMeshPositions 0 0 !! "indices" = Some (VInts ix) /\
    meshCfg Samples.plainViewer Samples.plainOptions
      Samples.decreasingMeshPositions 0 0 !! "edgeIndices"
    = Some (VInts ed) /\
    ta_within p (positions Samples.decreasingMeshPositions) /\
    ta_within n (normals Samples.decreasingMeshPositions) /\
    ta_within ix (indices Samples.decreasingMeshPositions) /\
    ta_within ed (edgeIndices Samples.decreasingMeshPositions) /\
    (ta_valid (positions Samples.decreasingMeshPositions) -> ta_valid p) /\
    (ta_valid (normals Samples.decreasingMeshPositions) -> ta_valid n) /\
    (ta_valid (indices Samples.decreasingMeshPositions) -> ta_valid ix) /\
    (ta_valid (edgeIndices Samples.decreasingMeshPositions) -> ta_valid ed).
Proof.
  assert (Hin : CreateMesh (meshCfg Samples.plainViewer Samples.plainOptions
                              Samples.decreasingMeshPositions 0 0)
                  ∈ emitted (load Samples.plainViewer Samples.plainOptions
                               Samples.decreasingMeshPositions)
                      initialStore).
  { vm_compute. left. }
  split; [exact Hin|].
  exact (mesh_slices_stay_within_their_arrays _ _ _ _ _ Hin).
Defined.

(** ** The slices of the meshes tile the shared array *)

Section Tiling.

Context {A : Type}.
Variable d : InflatedData.
Variable src : TypedArray A.
Variable table : TypedArray nat.

Lemma ta_get_elements {B} (a : TypedArray B) k :
  ta_get a k = ta_elements a !! k.
Proof.
  unfold ta_get, ta_elements. rewrite lookup_take, lookup_drop.
  by case_decide.
Qed.

Lemma ascending_to_head len t offsets :
  ascending_to len (t :: offsets) -> t <= len.
Proof.
  revert t. induction offsets as [|t' offsets IH]; intros t; simpl; [done|].
  intros [Hle Hrest]. specialize (IH t' Hrest). lia.
Qed.

Lemma tile_from offsets : forall k t,
  ta_valid src ->
  (forall m, m < S (length offsets) ->
             ta_get table (k + m) = (t :: offsets) !! m) ->
  k + S (length offsets) = numMeshes d ->
  ascending_to (ta_length src) (t :: offsets) ->
  concat (map (fun j => ta_elements (meshSlice d src table j))
              (seq k (S (length offsets))))
  = drop t (ta_elements src).
Proof.
  induction offsets as [|t' offsets IH]; intros k t Hvalid Hget HM Hasc.
  - simpl. rewrite app_nil_r. unfold meshSlice, endOffset.
    assert (Hlast : lastMesh d k = true).
    { unfold lastMesh. apply Z.eqb_eq. simpl in HM. lia. }
    rewrite Hlast. specialize (Hget 0 ltac:(lia)). rewrite Nat.add_0_r in Hget.
    rewrite Hget; simpl. simpl in Hasc.
    rewrite ta_elements_subarray by lia.
    apply take_ge. rewrite length_drop, ta_elements_length by done. lia.
  - change (seq k (S (length (t' :: offsets))))
      with (k :: seq (S k) (S (length offsets))).
    rewrite map_cons, concat_cons.
    destruct Hasc as [Hle Hrest].
    pose proof (ascending_to_head _ _ _ Hrest) as Hle'.
    rewrite (IH (S k) t' Hvalid); [|
      intros m Hm; specialize (Hget (S m) ltac:(simpl; lia));
      by rewrite <- Nat.add_succ_comm in Hget| simpl in *; lia | done].
    unfold meshSlice, endOffset.
    assert (Hnot : lastMesh d k = false).
    { unfold lastMesh. apply Z.eqb_neq. simpl in HM. lia. }
    rewrite Hnot.
    pose proof (Hget 0 ltac:(simpl; lia)) as H0.
    pose proof (Hget 1 ltac:(simpl; lia)) as H1.
    rewrite Nat.add_0_r in H0. rewrite H0, H1; simpl.
    rewrite ta_elements_subarray by lia.
    replace (drop t' (ta_elements src))
      with (drop (t' - t) (drop t (ta_elements src))).
    + apply take_drop.
    + rewrite drop_drop. f_equal. lia.
Qed.

(** When the [M] offsets of a table do not decrease and stay inside the
    shared array, the slices of meshes 0 to [M - 1], one after the other,
    are the array from the first offset to its end: no element is lost or
    handed out twice, and with a first offset 0 they are the whole array. *)
Theorem mesh_slices_tile_the_array t offsets :
  ta_valid src ->
  ta_elements table = t :: offsets ->
  S (length offsets) = numMeshes d ->
  ascending_to (ta_length src) (t :: offsets) ->
  concat (map (fun j => ta_elements (meshSlice d src table j))
              (seq 0 (numMeshes d)))
  = drop t (ta_elements src) /\
  (t = 0 ->
   concat (map (fun j => ta_elements (meshSlice d src table j))
               (seq 0 (numMeshes d)))
   = ta_elements src).
Proof.
  intros Hvalid Hels HM Hasc.
  assert (Htile : concat (map (fun j => ta_elements (meshSlice d src table j))
                              (seq 0 (numMeshes d)))
                  = drop t (ta_elements src)).
  { rewrite <- HM. apply tile_from; try done.
    intros m _. by rewrite ta_get_elements, Hels. }
  split; [exact Htile|]. intros ->. by rewrite Htile.
Qed.

End Tiling.

(** The positions of the two-mesh container: nine numbers for mesh 0, nine
    for mesh 1, together the eighteen of the array. *)
Lemma mesh_slices_tile_the_array_witness :
  ta_elements (meshPositions Samples.twoEntities) = [0; 9] /\
  concat (map (fun j => ta_elements
                          (meshSlice Samples.twoEntities
                             (positions Samples.twoEntities)
                             (meshPositions Samples.twoEntities) j))
              (seq 0 (numMeshes Samples.twoEntities)))
  = ta_elements (positions Samples.twoEntities).
Proof.
  split; [reflexivity|].
  apply (proj2 (mesh_slices_tile_the_array Samples.twoEntities
                  (positions Samples.twoEntities)
                  (meshPositions Samples.twoEntities) 0 [9]
                  ltac:(vm_compute; lia) eq_refl eq_refl
                  ltac:(vm_compute; lia))).
  reflexivity.
Defined.

(** ** Mesh identifiers *)

Lemma dots_append s1 s2 : dots (s1 +:+ s2) = dots s1 + dots s2.
Proof. induction s1 as [|c s1 IH]; simpl; [done|]. rewrite IH. lia. Qed.

Lemma dots_digits (u : Decimal.uint) : dots (NilEmpty.string_of_uint u) = 0.
Proof. induction u; simpl; done. Qed.

Lemma dots_nat_to_string n : dots (nat_to_string n) = 0.
Proof.
  unfold nat_to_string, NilZero.string_of_uint.
  destruct (Nat.to_uint n) eqn:E; try (rewrite <- E; apply dots_digits).
  reflexivity.
Qed.

Lemma nat_to_string_inj n m : nat_to_string n = nat_to_string m -> n = m.
Proof.
  assert (Hnil : forall k, Nat.to_uint k <> Decimal.Nil).
  { intros k Hk. pose proof (DecimalNat.Unsigned.of_to k) as H.
    rewrite Hk in H. simpl in H. subst k. discriminate. }
  intros H. unfold nat_to_string in H.
  apply (f_equal NilZero.uint_of_string) in H.
  rewrite !NilZero.usu in H by apply Hnil.
  injection H as H. by apply DecimalNat.Unsigned.to_uint_inj.
Qed.

Lemma dots_cons c s :
  dots (String c s) = (if Ascii.eqb c full_stop then 1 else 0) + dots s.
Proof. reflexivity. Qed.

(** Two strings that end in ".mesh." and a run of characters without a full
    stop are equal only if both parts are. *)
Lemma mesh_suffix_inj s1 : forall s2 t1 t2,
  dots t1 = 0 -> dots t2 = 0 ->
  s1 +:+ ".mesh." +:+ t1 = s2 +:+ ".mesh." +:+ t2 ->
  s1 = s2 /\ t1 = t2.
Proof.
  assert (Hmesh : dots ".mesh." = 2) by reflexivity.
  induction s1 as [|c s1 IH]; intros [|c' s2] t1 t2 H1 H2 Heq.
  - simpl in Heq. by simplify_eq.
  - pose proof (f_equal dots Heq) as Hd.
    rewrite !dots_append, Hmesh, H1, H2, dots_cons in Hd.
    simpl in Heq. injection Heq as <- _.
    change (Ascii.eqb full_stop full_stop) with true in Hd.
    simpl in Hd. lia.
  - pose proof (f_equal dots Heq) as Hd.
    rewrite !dots_append, Hmesh, H1, H2, dots_cons in Hd.
    simpl in Heq. injection Heq as -> _.
    change (Ascii.eqb full_stop full_stop) with true in Hd.
    simpl in Hd. lia.
  - simpl in Heq. injection Heq as -> Heq.
    destruct (IH s2 t1 t2 H1 H2 Heq) as [-> ->]. done.
Qed.

Lemma meshId_inj d i j i' j' :
  meshId d i j = meshId d i' j' ->
  js_string (entityId d i) = js_string (entityId d i') /\ j = j'.
Proof.
  unfold meshId. intros H.
  apply mesh_suffix_inj in H as [Hs Hj]; try apply dots_nat_to_string.
  split; [done|]. by apply nat_to_string_inj.
Qed.

Lemma NoDup_flat_map {B C} (f : B -> list C) (l : list B) :
  NoDup l ->
  (forall x, x ∈ l -> NoDup (f x)) ->
  (forall x y c, x ∈ l -> y ∈ l -> c ∈ f x -> c ∈ f y -> x = y) ->
  NoDup (flat_map f l).
Proof.
  induction 1 as [|x l Hx Hl IH]; intros Hf Hdisj; simpl; [constructor|].
  apply NoDup_app. split; [apply Hf; left|]. split.
  - intros c Hc Hin. apply list_elem_of_In, in_flat_map in Hin
      as (y & Hy & Hcy). apply list_elem_of_In in Hy, Hcy.
    assert (x = y) by (eapply Hdisj; [left|by right|done..]).
    by subst.
  - apply IH.
    + intros y Hy. apply Hf. by right.
    + intros y z c Hy Hz. apply Hdisj; by right.
Qed.

Section MeshIds.

Variable viewer : Viewer.
Variable options : Options.
Variable d : InflatedData.

Lemma createdMeshIds_entityCalls i :
  createdMeshIds (entityCalls viewer options d i)
  = map (fun j => VStr (meshId d i j)) (visitedBy viewer options d i).
Proof.
  unfold entityCalls, visitedBy.
  destruct (skipped viewer options d i); [done|].
  rewrite createdMeshIds_app, createdMeshIds_meshes.
  unfold createdMeshIds; simpl. by rewrite app_nil_r.
Qed.

Lemma createdMeshIds_load st :
  createdMeshIds (emitted (load viewer options d) st)
  = flat_map (fun i => map (fun j => VStr (meshId d i j))
                         (visitedBy viewer options d i))
      (seq 0 (numEntities d)).
Proof.
  rewrite load_emitted.
  induction (seq 0 (numEntities d)) as [|i l IH]; simpl; [done|].
  by rewrite createdMeshIds_app, createdMeshIds_entityCalls, IH.
Qed.

(** When every entity has an identifier and no identifier occurs twice,
    no two [createMesh] calls of a decode carry the same ["id"]. *)
Theorem mesh_ids_are_unique st :
  numEntities d <= length (entityIDs d) ->
  NoDup (entityIDs d) ->
  NoDup (createdMeshIds (emitted (load viewer options d) st)).
Proof.
  intros Hlen Hids. rewrite createdMeshIds_load.
  apply NoDup_flat_map.
  - apply NoDup_ListNoDup, seq_NoDup.
  - intros i _. apply NoDup_fmap_2_strong.
    + intros j j' _ _ [=H]. by apply meshId_inj in H as [_ ->].
    + unfold visitedBy, meshIndicesOf.
      destruct (skipped viewer options d i); [constructor|].
      apply NoDup_ListNoDup, seq_NoDup.
  - intros i i' c Hi Hi' Hc Hc'.
    apply list_elem_of_In, in_seq in Hi, Hi'.
    apply list_elem_of_fmap in Hc as (j & -> & _).
    apply list_elem_of_fmap in Hc' as (j' & [=H] & _).
    apply meshId_inj in H as [H _]. unfold entityId in H.
    destruct (lookup_lt_is_Some_2 (entityIDs d) i ltac:(lia)) as [s Hs].
    destruct (lookup_lt_is_Some_2 (entityIDs d) i' ltac:(lia)) as [s' Hs'].
    rewrite Hs, Hs' in H. simpl in H. subst s'.
    by eapply NoDup_lookup.
Qed.

End MeshIds.

Lemma mesh_ids_are_unique_witness :
  NoDup (entityIDs Samples.threeEntities) /\
  NoDup (createdMeshIds
           (emitted (load Samples.plainViewer Samples.plainOptions
                       Samples.threeEntities) initialStore)).
Proof.
  assert (H : NoDup (entityIDs Samples.threeEntities)).
  { apply (bool_decide_unpack (NoDup (entityIDs Samples.threeEntities))).
    vm_compute. exact I. }
  split; [exact H|].
  apply (mesh_ids_are_unique Samples.plainViewer Samples.plainOptions
           Samples.threeEntities initialStore); [vm_compute; lia|exact H].
Defined.

(** ** extract, inflate and parse *)

Example inflate_stored_blocks :
  inflate (extract Blocks.oneTriangle) (Some Blocks.stored)
  = Return Blocks.oneTriangleInflated /\
  inflate (extract Blocks.oddPositions) (Some Blocks.stored)
  = Throw RangeError /\
  inflate (extract []) (Some Blocks.stored) = Throw (Thrown "no data").
Proof. repeat split; vm_compute; reflexivity. Qed.

Example binary32_patterns :
  binary32_of_bits 0 = S754_zero false /\
  binary32_of_bits 1 = S754_finite false 1 (-149) /\
  of_binary32 (binary32_of_bits 1065353216) = of_Z 1 /\
  binary32_of_bits 2139095040 = S754_infinity false /\
  binary32_of_bits 4286578688 = S754_infinity true /\
  binary32_of_bits 2143289344 = S754_nan.
Proof. repeat split; vm_compute; reflexivity. Qed.

(** *** Typed arrays over a buffer *)

Lemma byte_value_range (b : byte) : (0 <= byte_value b < 256)%Z.
Proof.
  unfold byte_value. pose proof (Byte.to_N_bounded b). lia.
Qed.

Lemma uint16_elements_length (bytes : Block) :
  2 * length (uint16_elements bytes) + length bytes mod 2 = length bytes.
Proof.
  assert (H : forall n (l : Block), length l <= n ->
                2 * length (uint16_elements l) + length l mod 2 = length l).
  { induction n as [|n IH]; intros l Hl.
    - destruct l; [reflexivity|simpl in Hl; lia].
    - destruct l as [|b0 [|b1 rest]]; [reflexivity..|].
      cbn [uint16_elements length]. specialize (IH rest).
      cbn [length] in Hl.
      replace (S (S (length rest)) mod 2) with (length rest mod 2).
      + lia.
      + change (S (S (length rest))) with (2 + length rest).
        symmetry. rewrite Nat.add_comm.
        apply (Nat.Div0.mod_add (length rest) 1 2). }
  by apply (H (length bytes)).
Qed.

Lemma uint32_elements_length (bytes : Block) :
  4 * length (uint32_elements bytes) + length bytes mod 4 = length bytes.
Proof.
  assert (H : forall n (l : Block), length l <= n ->
                4 * length (uint32_elements l) + length l mod 4 = length l).
  { induction n as [|n IH]; intros l Hl.
    - destruct l; [reflexivity|simpl in Hl; lia].
    - destruct l as [|b0 [|b1 [|b2 [|b3 rest]]]]; [reflexivity..|].
      cbn [uint32_elements length]. specialize (IH rest).
      cbn [length] in Hl.
      replace (S (S (S (S (length rest)))) mod 4) with (length rest mod 4).
      + lia.
      + change (S (S (S (S (length rest))))) with (4 + length rest).
        symmetry. rewrite Nat.add_comm.
        apply (Nat.Div0.mod_add (length rest) 1 4). }
  by apply (H (length bytes)).
Qed.

Lemma uint16_elements_range (bytes : Block) :
  Forall (fun z => (0 <= z < 65536)%Z) (uint16_elements bytes).
Proof.
  assert (H : forall n (l : Block), length l <= n ->
                Forall (fun z => (0 <= z < 65536)%Z) (uint16_elements l)).
  { induction n as [|n IH]; intros l Hl.
    - destruct l; [constructor|simpl in Hl; lia].
    - destruct l as [|b0 [|b1 rest]]; [constructor..|].
      cbn [uint16_elements]. constructor.
      + pose proof (byte_value_range b0). pose proof (byte_value_range b1).
        lia.
      + apply IH. cbn [length] in Hl. lia. }
  by apply (H (length bytes)).
Qed.

Lemma uint32_elements_range (bytes : Block) :
  Forall (fun z => (0 <= z < 4294967296)%Z) (uint32_elements bytes).
Proof.
  assert (H : forall n (l : Block), length l <= n ->
                Forall (fun z => (0 <= z < 4294967296)%Z)
                  (uint32_elements l)).
  { induction n as [|n IH]; intros l Hl.
    - destruct l; [constructor|simpl in Hl; lia].
    - destruct l as [|b0 [|b1 [|b2 [|b3 rest]]]]; [constructor..|].
      cbn [uint32_elements]. constructor.
      + pose proof (byte_value_range b0). pose proof (byte_value_range b1).
        pose proof (byte_value_range b2). pose proof (byte_value_range b3).
        lia.
      + apply IH. cbn [length] in Hl. lia. }
  by apply (H (length bytes)).
Qed.

Lemma int8_element_range (b : byte) : (-128 <= int8_element b < 128)%Z.
Proof.
  unfold int8_element. pose proof (byte_value_range b).
  destruct (byte_value b <? 128)%Z eqn:E.
  - apply Z.ltb_lt in E. lia.
  - apply Z.ltb_ge in E. lia.
Qed.

Lemma Return_inj {A} (a b : A) : Return a = Return b -> a = b.
Proof. intros H. by injection H. Qed.

Lemma newUint16Array_Return buffer a :
  newUint16Array buffer = Return a ->
  a = ta_of_list (uint16_elements buffer) /\ 2 * ta_length a = length buffer.
Proof.
  unfold newUint16Array. destruct (length buffer mod 2 =? 0) eqn:E; [|done].
  intros [= <-]. split; [done|]. apply Nat.eqb_eq in E.
  unfold ta_of_list; cbn [ta_length].
  pose proof (uint16_elements_length buffer). lia.
Qed.

Lemma newUint32Array_Return buffer a :
  newUint32Array buffer = Return a ->
  a = ta_of_list (uint32_elements buffer) /\ 4 * ta_length a = length buffer.
Proof.
  unfold newUint32Array. destruct (length buffer mod 4 =? 0) eqn:E; [|done].
  intros [= <-]. split; [done|]. apply Nat.eqb_eq in E.
  unfold ta_of_list; cbn [ta_length].
  pose proof (uint32_elements_length buffer). lia.
Qed.

Lemma newUint32Offsets_Return buffer a :
  newUint32Offsets buffer = Return a ->
  a = ta_of_list (map Z.to_nat (uint32_elements buffer)) /\
  4 * ta_length a = length buffer.
Proof.
  unfold newUint32Offsets. destruct (length buffer mod 4 =? 0) eqn:E; [|done].
  intros [= <-]. split; [done|]. apply Nat.eqb_eq in E.
  unfold ta_of_list; cbn [ta_length].
  rewrite length_map. pose proof (uint32_elements_length buffer). lia.
Qed.

Lemma newFloat32Array_Return buffer a :
  newFloat32Array buffer = Return a ->
  a = ta_of_list (map (fun w => of_binary32 (binary32_of_bits w))
                      (uint32_elements buffer)) /\
  4 * ta_length a = length buffer.
Proof.
  unfold newFloat32Array.
  destruct (length buffer mod 4 =? 0) eqn:E; [|discriminate].
  intros H. apply Return_inj in H. subst a.
  split; [reflexivity|]. apply Nat.eqb_eq in E.
  unfold ta_of_list; cbn [ta_length].
  rewrite length_map. pose proof (uint32_elements_length buffer). lia.
Qed.

Lemma decodes_of_list {A} pako block size buffer (l : list A) :
  pako_buffer pako block = Return buffer ->
  size * length l = length buffer ->
  decodes pako block size (ta_of_list l).
Proof. intros Hb Hl. exists buffer. by repeat split. Qed.

Lemma Throw_inj {A} (e e' : JSError) :
  @Throw A e = Throw e' -> e = e'.
Proof. intros H. by injection H. Qed.

(** A constructor call of [inflate] fails with the exception of the
    decompressor or with the constructor's RangeError. *)
Lemma inflated_Throw {A} pako (new : Block -> Outcome A) block e :
  inflated pako new block = Throw e ->
  (forall b e', new b = Throw e' -> e' = RangeError) ->
  pako_buffer pako block = Throw e \/ e = RangeError.
Proof.
  unfold inflated. intros H Hnew.
  destruct (pako_buffer pako block) as [b|e0]; cbn [andThen] in H.
  - right. by apply (Hnew b).
  - left. apply Throw_inj in H. by subst e0.
Qed.

Lemma constructors_throw_RangeError :
  (forall b e, newUint16Array b = Throw e -> e = RangeError) /\
  (forall b e, newInt8Array b = Throw e -> e = RangeError) /\
  (forall b e, newUint8Array b = Throw e -> e = RangeError) /\
  (forall b e, newUint32Array b = Throw e -> e = RangeError) /\
  (forall b e, newUint32Offsets b = Throw e -> e = RangeError) /\
  (forall b e, newFloat32Array b = Throw e -> e = RangeError).
Proof.
  unfold newUint16Array, newInt8Array, newUint8Array, newUint32Array,
    newUint32Offsets, newFloat32Array.
  repeat split; intros b e H; try discriminate H;
    (destruct (_ =? 0) in H; [discriminate H|]);
    apply Throw_inj in H; by subst e.
Qed.

(** *** inflate *)

Section InflateFacts.

Variable pako : Pako.
Variable deflatedData : Deflated.t.

(** When [inflate] returns, each of its arrays is a view of a whole buffer
    (offset 0, as long as the buffer) with one element per two bytes
    ([positions]), per byte ([normals], [meshColors], [entityIsObjects]) or
    per four bytes (the others) of what the decompressor returned for its
    block, and [entityIDs] is the decompressor's text. *)
Theorem inflate_views_whole_buffers raw :
  inflate deflatedData (Some pako) = Return raw ->
  decodes pako (Deflated.positions deflatedData) 2 (Inflated.positions raw) /\
  decodes pako (Deflated.normals deflatedData) 1 (Inflated.normals raw) /\
  decodes pako (Deflated.indices deflatedData) 4 (Inflated.indices raw) /\
  decodes pako (Deflated.edgeIndices deflatedData) 4
    (Inflated.edgeIndices raw) /\
  decodes pako (Deflated.meshPositions deflatedData) 4
    (Inflated.meshPositions raw) /\
  decodes pako (Deflated.meshIndices deflatedData) 4
    (Inflated.meshIndices raw) /\
  decodes pako (Deflated.meshEdgesIndices deflatedData) 4
    (Inflated.meshEdgesIndices raw) /\
  decodes pako (Deflated.meshColors deflatedData) 1
    (Inflated.meshColors raw) /\
  pako_string pako (Deflated.entityIDs deflatedData)
  = Return (Inflated.entityIDs raw) /\
  decodes pako (Deflated.entityMeshes deflatedData) 4
    (Inflated.entityMeshes raw) /\
  decodes pako (Deflated.entityIsObjects deflatedData) 1
    (Inflated.entityIsObjects raw) /\
  decodes pako (Deflated.positionsDecodeMatrix deflatedData) 4
    (Inflated.positionsDecodeMatrix raw).
Proof.
  intros H. inflate_inversion H.
  repeat match goal with
  | E : newUint16Array _ = Return _ |- _ =>
      apply newUint16Array_Return in E as [-> ?]
  | E : newUint32Array _ = Return _ |- _ =>
      apply newUint32Array_Return in E as [-> ?]
  | E : newUint32Offsets _ = Return _ |- _ =>
      apply newUint32Offsets_Return in E as [-> ?]
  | E : newFloat32Array _ = Return _ |- _ =>
      apply newFloat32Array_Return in E as [-> ?]
  | E : newInt8Array _ = Return _ |- _ => injection E as <-
  | E : newUint8Array _ = Return _ |- _ => injection E as <-
  end.
  repeat split; try done;
    (eapply decodes_of_list; [eassumption|]);
    first [ assumption | rewrite ?length_map; lia ].
Qed.

(** The elements [inflate] returns are in the range of their type:
    [positions] in 0..65535, [normals] in -128..127, the index arrays and the
    offset tables in 0..2^32-1. *)
Theorem inflate_elements_in_range raw :
  inflate deflatedData (Some pako) = Return raw ->
  elements_between 0 65536 (Inflated.positions raw) /\
  elements_between (-128) 128 (Inflated.normals raw) /\
  elements_between 0 4294967296 (Inflated.indices raw) /\
  elements_between 0 4294967296 (Inflated.edgeIndices raw) /\
  offsets_below 4294967296 (Inflated.meshPositions raw) /\
  offsets_below 4294967296 (Inflated.meshIndices raw) /\
  offsets_below 4294967296 (Inflated.meshEdgesIndices raw) /\
  offsets_below 4294967296 (Inflated.entityMeshes raw).
Proof.
  intros H. inflate_inversion H.
  repeat match goal with
  | E : newUint16Array _ = Return _ |- _ =>
      apply newUint16Array_Return in E as [-> _]
  | E : newUint32Array _ = Return _ |- _ =>
      apply newUint32Array_Return in E as [-> _]
  | E : newUint32Offsets _ = Return _ |- _ =>
      apply newUint32Offsets_Return in E as [-> _]
  | E : newInt8Array _ = Return _ |- _ => injection E as <-
  end.
  unfold elements_between, offsets_below, ta_of_list; cbn [ta_buffer].
  assert (Hoff : forall b : Block,
             Forall (fun n => (Z.of_nat n < 4294967296)%Z)
               (map Z.to_nat (uint32_elements b))).
  { intros b. apply Forall_fmap.
    eapply Forall_impl; [apply uint32_elements_range|].
    intros z Hz. cbv beta in Hz. unfold compose. lia. }
  repeat split;
    first [ apply uint16_elements_range | apply uint32_elements_range
          | apply Hoff
          | apply Forall_fmap, Forall_forall; intros b _;
            apply int8_element_range ].
Qed.

(** The exceptions of [inflate]: TypeError when it is called without a
    decompressor, before any block is touched; with a decompressor, only
    what the decompressor throws or the RangeError of a buffer that does not
    hold whole elements, as for [positions] of odd length. *)
Theorem inflate_exceptions :
  inflate deflatedData None = Throw TypeError /\
  (forall e,
     inflate deflatedData (Some pako) = Throw e ->
     e = RangeError \/
     (exists block, pako_buffer pako block = Throw e) \/
     (exists block, pako_string pako block = Throw e)) /\
  (forall buffer,
     pako_buffer pako (Deflated.positions deflatedData) = Return buffer ->
     length buffer mod 2 <> 0 ->
     inflate deflatedData (Some pako) = Throw RangeError).
Proof.
  split; [reflexivity|]. split.
  - intros e H. unfold inflate in H.
    repeat lazymatch type of H with
    | andThen ?m _ = Throw _ =>
        let E := fresh "E" in
        destruct m eqn:E; cbn [andThen] in H;
        [|apply Throw_inj in H; subst e;
          first [ right; right; eexists; exact E
                | apply inflated_Throw in E as [E|E];
                  [ right; left; eexists; exact E
                  | left; exact E
                  | apply constructors_throw_RangeError ] ]]
    end.
    discriminate H.
  - intros buffer Hb Hodd. unfold inflate, inflated. rewrite Hb.
    cbn [andThen]. unfold newUint16Array.
    destruct (length buffer mod 2 =? 0) eqn:E; [|reflexivity].
    apply Nat.eqb_eq in E. done.
Qed.

End InflateFacts.

(** *** load after inflate, and parse *)

Section ParseFacts.

Variable JSON_parse : string -> Outcome (list string).
Variable viewer : Viewer.
Variable options : Options.

(** [load] on the object of [inflate]: when the text of [entityIDs] parses,
    the store ends as after [load] on the parsed data; when [JSON.parse]
    throws, that exception leaves [load] after the builder has been marked
    as holding precompressed data and before any call to it. *)
Theorem load_after_JSON_parse raw st :
  (forall ids,
     JSON_parse (Inflated.entityIDs raw) = Return ids ->
     loadInflated JSON_parse viewer options raw st
     = (Return tt, exec (load viewer options (parsedData raw ids)) st)) /\
  (forall e,
     JSON_parse (Inflated.entityIDs raw) = Throw e ->
     fst (loadInflated JSON_parse viewer options raw st) = Throw e /\
     emitted (loadInflated JSON_parse viewer options raw) st = [] /\
     positionsCompression
       (performanceModel
          (exec (loadInflated JSON_parse viewer options raw) st))
     = Some "precompressed" /\
     normalsCompression
       (performanceModel
          (exec (loadInflated JSON_parse viewer options raw) st))
     = Some "precompressed" /\
     color2 (exec (loadInflated JSON_parse viewer options raw) st)
     = color2 st).
Proof.
  split.
  - intros ids Hids. unfold loadInflated, load, exec, bind; simpl.
    rewrite Hids. unfold bind.
    by destruct (for_loop _ _ _ _ _) as [[] st'].
  - intros e He. unfold emitted, exec, loadInflated, bind; simpl.
    rewrite He; simpl. repeat split; try done. apply drop_all.
Qed.

(** [parse] calls [inflate] with the deflated data alone, so [inflate] reads
    the property [inflate] of a decompressor that is [undefined]: whatever
    the elements, [parse] ends in a TypeError with the store as it was, the
    builder neither marked nor called. *)
Theorem parse_throws_before_the_builder_is_touched elements st :
  parse JSON_parse viewer options elements st = (Throw TypeError, st) /\
  emitted (parse JSON_parse viewer options elements) st = [].
Proof.
  split; [reflexivity|]. unfold emitted, exec, parse; simpl.
  apply drop_all.
Qed.

End ParseFacts.

Section PipelineFacts.

Variable pako : Pako.
Variable viewer : Viewer.
Variable options : Options.

Lemma decodes_valid {A} block size (a : TypedArray A) :
  decodes pako block size a -> ta_valid a.
Proof.
  intros (buffer & _ & Hoff & Hlen & _). unfold ta_valid, ta_end. lia.
Qed.

(** After [inflate], whatever the offset tables and the entity identifiers
    say, every slice that [load] hands to [createMesh] lies inside the
    buffer of the array it was cut from. *)
Theorem slices_of_inflated_data_are_in_bounds deflatedData raw ids st cfg :
  inflate deflatedData (Some pako) = Return raw ->
  CreateMesh cfg ∈ emitted (load viewer options (parsedData raw ids)) st ->
  exists p n ix ed,
    cfg !! "positions" = Some (VInts p) /\ ta_valid p /\
    cfg !! "normals" = Some (VInts n) /\ ta_valid n /\
    cfg !! "indices" = Some (VInts ix) /\ ta_valid ix /\
    cfg !! "edgeIndices" = Some (VInts ed) /\ ta_valid ed.
Proof.
  intros Hraw Hin.
  destruct (inflate_views_whole_buffers pako deflatedData raw Hraw)
    as (Hp & Hn & Hi & He & _).
  destruct (mesh_slices_stay_within_their_arrays _ _ _ _ _ Hin)
    as (p & n & ix & ed & H1 & H2 & H3 & H4 & _ & _ & _ & _
        & Vp & Vn & Vi & Ve).
  exists p, n, ix, ed.
  repeat split; try done.
  - apply Vp. by eapply decodes_valid.
  - apply Vn. by eapply decodes_valid.
  - apply Vi. by eapply decodes_valid.
  - apply Ve. by eapply decodes_valid.
Qed.

End PipelineFacts.

(** *** Little-endian round trip *)

Lemma byte_value_of_Z z : byte_value (byte_of_Z z) = (z mod 256)%Z.
Proof.
  unfold byte_value, byte_of_Z.
  assert (Hr : (0 <= z mod 256 < 256)%Z) by (apply Z.mod_pos_bound; lia).
  destruct (Byte.of_N (Z.to_N (z mod 256))) as [b|] eqn:E.
  - apply Byte.to_of_N in E. simpl. rewrite E. lia.
  - apply Byte.of_N_None_iff in E. lia.
Qed.

(** What a [Uint16Array] and a [Uint32Array] show for the little-endian
    bytes of a sequence of values in range is that sequence. *)
Theorem little_endian_round_trip :
  (forall zs,
     Forall (fun z => (0 <= z < 65536)%Z) zs ->
     newUint16Array (flat_map le16 zs) = Return (ta_of_list zs)) /\
  (forall zs,
     Forall (fun z => (0 <= z < 4294967296)%Z) zs ->
     newUint32Array (flat_map le32 zs) = Return (ta_of_list zs)).
Proof.
  split; intros zs Hzs.
  - assert (Hel : uint16_elements (flat_map le16 zs) = zs).
    { induction Hzs as [|z zs Hz _ IH]; [done|].
      cbn [flat_map le16 app uint16_elements]. rewrite IH.
      rewrite !byte_value_of_Z. f_equal.
      Z.to_euclidean_division_equations. lia. }
    assert (Hlen : length (flat_map le16 zs) = 2 * length zs).
    { clear. induction zs as [|z zs IH]; [done|].
      cbn [flat_map le16 app length]. rewrite IH. lia. }
    unfold newUint16Array. rewrite Hel, Hlen.
    replace (2 * length zs) with (length zs * 2) by lia.
    by rewrite Nat.Div0.mod_mul.
  - assert (Hel : uint32_elements (flat_map le32 zs) = zs).
    { induction Hzs as [|z zs Hz _ IH]; [done|].
      cbn [flat_map le32 app uint32_elements]. rewrite IH.
      rewrite !byte_value_of_Z. f_equal.
      Z.to_euclidean_division_equations. lia. }
    assert (Hlen : length (flat_map le32 zs) = 4 * length zs).
    { clear. induction zs as [|z zs IH]; [done|].
      cbn [flat_map le32 app length]. rewrite IH. lia. }
    unfold newUint32Array. rewrite Hel, Hlen.
    replace (4 * length zs) with (length zs * 4) by lia.
    by rewrite Nat.Div0.mod_mul.
Qed.

(** ** The properties on the sample inputs *)

Import Samples.

Lemma entity_lists_the_meshes_created_for_it_witness :
  CreateEntity (entityCfg plainViewer plainOptions twoEntities 0)
    ∈ emitted (load plainViewer plainOptions twoEntities) initialStore
  /\ exists i before cfgs ids after,
    emitted (load plainViewer plainOptions twoEntities) initialStore
    = before ++ map CreateMesh cfgs
      ++ CreateEntity (entityCfg plainViewer plainOptions twoEntities 0)
         :: after /\
    entityCfg plainViewer plainOptions twoEntities 0 !! "id"
    = Some (value_of_id (entityId twoEntities i)) /\
    entityCfg plainViewer plainOptions twoEntities 0 !! "meshIds"
    = Some (VStrs ids) /\
    map (fun cfg => cfg !! "id") cfgs = map (fun s => Some (VStr s)) ids /\
    length ids = snd (meshRange twoEntities i).
Proof.
  assert (Hin : CreateEntity (entityCfg plainViewer plainOptions twoEntities 0)
                  ∈ emitted (load plainViewer plainOptions twoEntities)
                      initialStore).
  { vm_compute. right. left. }
  split; [exact Hin|].
  exact (entity_lists_the_meshes_created_for_it _ _ _ _ _ Hin).
Defined.


Lemma unclassified_entity_gets_no_defaults_witness :
  metaObject plainViewer singleMesh 0 = None /\
  emitted (loadEntity plainViewer Defaults.hiddenByDefault singleMesh 0 tt)
    initialStore
  = map (fun j => CreateMesh (meshLiteral singleMesh 0 j (VFloat32Ref Color2)
                                (decodedOpacity singleMesh j)))
        (meshIndicesOf singleMesh 0)
    ++ [CreateEntity (entityLiteral singleMesh 0
                        (map (meshId singleMesh 0)
                           (meshIndicesOf singleMesh 0)))].
Proof.
  split; [reflexivity|].
  apply (unclassified_entity_gets_no_defaults plainViewer
           Defaults.hiddenByDefault singleMesh 0 initialStore);
    reflexivity.
Defined.


Lemma entity_defaults_only_switch_off_witness :
  propsOf Defaults.hiddenWalls (mkMetaObject (Some "Wall"))
  = Some Defaults.hiddenProps /\
  exists cfgs e,
    emitted (loadEntity classifiedViewer Defaults.hiddenWalls twoEntities 0 tt)
      initialStore
    = map CreateMesh cfgs ++ [CreateEntity e] /\
    e !! "visible" = Some (VBool false) /\
    e !! "pickable" = None /\
    e !! "id" = Some (value_of_id (entityId twoEntities 0)) /\
    e !! "isObject"
    = Some (VBool (strictly_one (ta_get (entityIsObjects twoEntities) 0))).
Proof.
  split; [reflexivity|].
  exact (entity_defaults_only_switch_off classifiedViewer Defaults.hiddenWalls
           twoEntities 0 (mkMetaObject (Some "Wall")) Defaults.hiddenProps
           initialStore eq_refl eq_refl eq_refl).
Defined.

Lemma inflate_views_whole_buffers_witness :
  inflate (extract Blocks.oneTriangle) (Some Blocks.stored)
  = Return Blocks.oneTriangleInflated /\
  decodes Blocks.stored (Deflated.positions (extract Blocks.oneTriangle)) 2
    (Inflated.positions Blocks.oneTriangleInflated) /\
  decodes Blocks.stored (Deflated.indices (extract Blocks.oneTriangle)) 4
    (Inflated.indices Blocks.oneTriangleInflated).
Proof.
  assert (H : inflate (extract Blocks.oneTriangle) (Some Blocks.stored)
              = Return Blocks.oneTriangleInflated)
    by (vm_compute; reflexivity).
  split; [exact H|].
  destruct (inflate_views_whole_buffers Blocks.stored
              (extract Blocks.oneTriangle) Blocks.oneTriangleInflated H)
    as (Hp & _ & Hi & _).
  split; [exact Hp|exact Hi].
Defined.

Lemma inflate_elements_in_range_witness :
  inflate (extract Blocks.oneTriangle) (Some Blocks.stored)
  = Return Blocks.oneTriangleInflated /\
  elements_between 0 65536 (Inflated.positions Blocks.oneTriangleInflated) /\
  elements_between (-128) 128 (Inflated.normals Blocks.oneTriangleInflated).
Proof.
  assert (H : inflate (extract Blocks.oneTriangle) (Some Blocks.stored)
              = Return Blocks.oneTriangleInflated)
    by (vm_compute; reflexivity).
  split; [exact H|].
  destruct (inflate_elements_in_range Blocks.stored
              (extract Blocks.oneTriangle) Blocks.oneTriangleInflated H)
    as (Hp & Hn & _).
  split; [exact Hp|exact Hn].
Defined.

Lemma inflate_exceptions_witness :
  pako_buffer Blocks.stored (Deflated.positions (extract Blocks.oddPositions))
  = Return [x00; x00; x00] /\
  inflate (extract Blocks.oddPositions) (Some Blocks.stored)
  = Throw RangeError.
Proof.
  split; [reflexivity|].
  apply (proj2 (proj2 (inflate_exceptions Blocks.stored
                         (extract Blocks.oddPositions)))
           [x00; x00; x00]).
  - reflexivity.
  - vm_compute. discriminate.
Defined.

Lemma load_after_JSON_parse_witness :
  loadInflated Blocks.oneWall plainViewer plainOptions
    Blocks.oneTriangleInflated initialStore
  = (Return tt,
     exec (load plainViewer plainOptions
             (parsedData Blocks.oneTriangleInflated ["wall-1"]))
       initialStore) /\
  (fst (loadInflated Blocks.malformed plainViewer plainOptions
          Blocks.oneTriangleInflated initialStore) = Throw SyntaxError /\
   emitted (loadInflated Blocks.malformed plainViewer plainOptions
              Blocks.oneTriangleInflated) initialStore = []).
Proof.
  split.
  - apply (proj1 (load_after_JSON_parse Blocks.oneWall plainViewer
                    plainOptions Blocks.oneTriangleInflated initialStore)).
    reflexivity.
  - destruct (proj2 (load_after_JSON_parse Blocks.malformed plainViewer
                       plainOptions Blocks.oneTriangleInflated initialStore)
                SyntaxError eq_refl) as (H1 & H2 & _).
    split; [exact H1|exact H2].
Defined.

Lemma slices_of_inflated_data_are_in_bounds_witness :
  inflate (extract Blocks.oneTriangle) (Some Blocks.stored)
  = Return Blocks.oneTriangleInflated /\
  CreateMesh (meshCfg plainViewer plainOptions
                (parsedData Blocks.oneTriangleInflated ["wall-1"]) 0 0)
    ∈ emitted (load plainViewer plainOptions
                 (parsedData Blocks.oneTriangleInflated ["wall-1"]))
        initialStore /\
  exists p n ix ed,
    meshCfg plainViewer plainOptions
      (parsedData Blocks.oneTriangleInflated ["wall-1"]) 0 0 !! "positions"
    = Some (VInts p) /\ ta_valid p /\
    meshCfg plainViewer plainOptions
      (parsedData Blocks.oneTriangleInflated ["wall-1"]) 0 0 !! "normals"
    = Some (VInts n) /\ ta_valid n /\
    meshCfg plainViewer plainOptions
      (parsedData Blocks.oneTriangleInflated ["wall-1"]) 0 0 !! "indices"
    = Some (VInts ix) /\ ta_valid ix /\
    meshCfg plainViewer plainOptions
      (parsedData Blocks.oneTriangleInflated ["wall-1"]) 0 0 !! "edgeIndices"
    = Some (VInts ed) /\ ta_valid ed.
Proof.
  assert (H : inflate (extract Blocks.oneTriangle) (Some Blocks.stored)
              = Return Blocks.oneTriangleInflated)
    by (vm_compute; reflexivity).
  assert (Hin : CreateMesh (meshCfg plainViewer plainOptions
                              (parsedData Blocks.oneTriangleInflated
                                 ["wall-1"]) 0 0)
                  ∈ emitted (load plainViewer plainOptions
                               (parsedData Blocks.oneTriangleInflated
                                  ["wall-1"])) initialStore).
  { vm_compute. left. }
  split; [exact H|]. split; [exact Hin|].
  exact (slices_of_inflated_data_are_in_bounds Blocks.stored plainViewer
           plainOptions (extract Blocks.oneTriangle)
           Blocks.oneTriangleInflated ["wall-1"] initialStore _ H Hin).
Defined.

Lemma little_endian_round_trip_witness :
  newUint16Array (flat_map le16 [0; 9; 65535]%Z)
  = Return (ta_of_list [0; 9; 65535]%Z) /\
  newUint32Array (flat_map le32 [0; 305419896; 4294967295]%Z)
  = Return (ta_of_list [0; 305419896; 4294967295]%Z).
Proof.
  split.
  - apply (proj1 little_endian_round_trip).
    repeat constructor; lia.
  - apply (proj2 little_endian_round_trip).
    repeat constructor; lia.
Defined.
